(** * Bhavcopy retrieval pipelines (runner_bse.py, runner_nse.py)

    A shallow embedding of the two per-exchange download pipelines and of
    their range drivers, with the file system, the network and the console
    as explicit state.

    Library code the scripts call (datetime, pathlib, requests, zipfile,
    gzip, pickle) is modelled by its documented behaviour:
    - a [datetime] produced by [strptime] with a date-only format is a
      calendar day (year, month, day); years range over 1..9999 as in
      Python, and adding a day past 31 Dec 9999 raises [OverflowError];
    - text is ASCII; [%Y] prints four zero-padded digits;
    - a path is compared as a string, as on a POSIX (case-sensitive) file
      system, which is what the scripts' shebang and relative paths target;
    - the gzip, zip and pickle byte formats are an interface ([Codecs]). *)

From Stdlib Require Import ZArith Lia Ascii.
From stdpp Require Import gmap strings list.

Local Open Scope Z_scope.

Abbreviation bytes := (list Byte.byte).

(** ** ASCII text helpers *)

Module Str.

Definition upper_char (c : ascii) : ascii :=
  let n := N_of_ascii c in
  if ((97 <=? n) && (n <=? 122))%N then ascii_of_N (n - 32) else c.

(** [str.upper()] on ASCII text. *)
Fixpoint upper (s : string) : string :=
  match s with
  | EmptyString => EmptyString
  | String c t => String (upper_char c) (upper t)
  end.

Definition digit_char (n : Z) : ascii :=
  match n with
  | 0 => "0" | 1 => "1" | 2 => "2" | 3 => "3" | 4 => "4"
  | 5 => "5" | 6 => "6" | 7 => "7" | 8 => "8" | _ => "9"
  end%char.

(** The value of a decimal digit; [None] for any other character. *)
Definition digit_val (c : ascii) : option Z :=
  let n := N_of_ascii c in
  if ((48 <=? n) && (n <=? 57))%N then Some (Z.of_N n - 48) else None.

(** Two and four zero-padded decimal digits ([%d], [%m] and [%Y]). *)
Definition fmt2 (n : Z) : string :=
  String (digit_char (n / 10 mod 10)) (String (digit_char (n mod 10)) "").

Definition fmt4 (n : Z) : string :=
  String (digit_char (n / 1000 mod 10))
    (String (digit_char (n / 100 mod 10)) (fmt2 n)).

(** [needle in s] for Python strings. *)
Fixpoint prefix_b (p s : string) : bool :=
  match p, s with
  | EmptyString, _ => true
  | String a p', String b s' => if decide (a = b) then prefix_b p' s' else false
  | String _ _, EmptyString => false
  end.

Fixpoint contains (needle s : string) : bool :=
  prefix_b needle s ||
  match s with
  | EmptyString => false
  | String _ t => contains needle t
  end.

(** Index of the last ["."] ([name.rfind('.')]); [None] is Python's -1. *)
Fixpoint rfind_dot (s : string) : option nat :=
  match s with
  | EmptyString => None
  | String c t =>
      match rfind_dot t with
      | Some i => Some (S i)
      | None => if decide (c = "."%char) then Some O else None
      end
  end.

Fixpoint take (n : nat) (s : string) : string :=
  match n, s with
  | S n', String c t => String c (take n' t)
  | _, _ => EmptyString
  end.

Fixpoint drop (n : nat) (s : string) : string :=
  match n, s with
  | S n', String _ t => drop n' t
  | _, _ => s
  end.

End Str.

(** ** Calendar days: the part of [datetime] the scripts use *)

Module Datetime.

Record datetime := mkdate { year : Z; month : Z; day : Z }.

Definition MINYEAR := 1.
Definition MAXYEAR := 9999.
Definition MAXORDINAL := 3652059.

Definition is_leap (y : Z) : bool :=
  (y mod 4 =? 0) && (negb (y mod 100 =? 0) || (y mod 400 =? 0)).

Definition days_in_month (y m : Z) : Z :=
  match m with
  | 2 => if is_leap y then 29 else 28
  | 4 | 6 | 9 | 11 => 30
  | _ => 31
  end.

Definition days_before_year (y : Z) : Z :=
  let p := y - 1 in p * 365 + p / 4 - p / 100 + p / 400.

Definition days_before_month (y m : Z) : Z :=
  match m with
  | 1 => 0 | 2 => 31 | 3 => 59 | 4 => 90 | 5 => 120 | 6 => 151
  | 7 => 181 | 8 => 212 | 9 => 243 | 10 => 273 | 11 => 304 | _ => 334
  end + (if (2 <? m) && is_leap y then 1 else 0).

Definition toordinal (d : datetime) : Z :=
  days_before_year (year d) + days_before_month (year d) (month d) + day d.

(** [weekday()]: Monday is 0, Sunday is 6. *)
Definition weekday (d : datetime) : Z := (toordinal d + 6) mod 7.

Definition valid_b (d : datetime) : bool :=
  (MINYEAR <=? year d) && (year d <=? MAXYEAR) &&
  (1 <=? month d) && (month d <=? 12) &&
  (1 <=? day d) && (day d <=? days_in_month (year d) (month d)).

(** [a <= b] on datetimes: field by field, most significant first. *)
Definition leb (a b : datetime) : bool :=
  if year a <? year b then true
  else if year b <? year a then false
  else if month a <? month b then true
  else if month b <? month a then false
  else day a <=? day b.

(** The calendar successor, i.e. [fromordinal (toordinal d + 1)]. *)
Definition next_day (d : datetime) : datetime :=
  if day d <? days_in_month (year d) (month d)
  then mkdate (year d) (month d) (day d + 1)
  else if month d <? 12
  then mkdate (year d) (month d + 1) 1
  else mkdate (year d + 1) 1 1.

(** [d + timedelta(days=1)]; [None] is [OverflowError]. *)
Definition add_one_day (d : datetime) : option datetime :=
  if toordinal d + 1 <=? MAXORDINAL then Some (next_day d) else None.

(** [%b] in the C locale. *)
Definition month_abbr (m : Z) : string :=
  match m with
  | 1 => "Jan" | 2 => "Feb" | 3 => "Mar" | 4 => "Apr" | 5 => "May"
  | 6 => "Jun" | 7 => "Jul" | 8 => "Aug" | 9 => "Sep" | 10 => "Oct"
  | 11 => "Nov" | _ => "Dec"
  end.

(** [%A] in the C locale. *)
Definition day_name (wd : Z) : string :=
  match wd with
  | 0 => "Monday" | 1 => "Tuesday" | 2 => "Wednesday" | 3 => "Thursday"
  | 4 => "Friday" | 5 => "Saturday" | _ => "Sunday"
  end.

(** [strftime("%d%b%Y")], e.g. 01Jan2024. *)
Definition strftime_dbY (d : datetime) : string :=
  Str.fmt2 (day d) +:+ month_abbr (month d) +:+ Str.fmt4 (year d).

(** [strftime("%Y%m%d")], e.g. 20240101. *)
Definition strftime_Ymd (d : datetime) : string :=
  Str.fmt4 (year d) +:+ Str.fmt2 (month d) +:+ Str.fmt2 (day d).

(** [strftime("%A %d-%b-%Y")], e.g. Saturday 06-Jan-2024. *)
Definition strftime_A_d_b_Y (d : datetime) : string :=
  day_name (weekday d) +:+ " " +:+ Str.fmt2 (day d) +:+ "-" +:+
  month_abbr (month d) +:+ "-" +:+ Str.fmt4 (year d).

(** *** [strptime(s, "%d%b%Y")]

    The format compiles to the regular expression
    [(3[0-1]|[1-2]\d|0[1-9]|[1-9]| [1-9])(jan|...|dec)(\d\d\d\d)],
    matched ignoring case at the start of the text; the whole text must
    be consumed and the fields must name a real day. *)

Definition parse_month (a b c : ascii) : option Z :=
  let key := String (Str.upper_char a) (String (Str.upper_char b)
               (String (Str.upper_char c) "")) in
  list_find (λ m, Str.upper (month_abbr m) = key)
    [1; 2; 3; 4; 5; 6; 7; 8; 9; 10; 11; 12] ≫= λ r, Some (snd r).

Definition parse_year (s : string) : option Z :=
  match s with
  | String a (String b (String c (String d EmptyString))) =>
      x ← Str.digit_val a; y ← Str.digit_val b;
      z ← Str.digit_val c; w ← Str.digit_val d;
      Some (1000 * x + 100 * y + 10 * z + w)
  | _ => None
  end.

(** What follows the day field: month, year, end of text. *)
Definition parse_rest (dd : Z) (s : string) : option datetime :=
  match s with
  | String a (String b (String c t)) =>
      m ← parse_month a b c;
      y ← parse_year t;
      let d := mkdate y m dd in
      if valid_b d then Some d else None
  | _ => None
  end.

(** The alternatives of the day field, in the order the regular
    expression tries them. *)
Definition day_two_digits (s : string) : option datetime :=
  match s with
  | String a (String b t) =>
      x ← Str.digit_val a; y ← Str.digit_val b;
      let ok := ((x =? 3) && (y <=? 1)) || ((1 <=? x) && (x <=? 2))
                || ((x =? 0) && (1 <=? y)) in
      if ok then parse_rest (10 * x + y) t else None
  | _ => None
  end.

Definition day_one_digit (s : string) : option datetime :=
  match s with
  | String a t =>
      x ← Str.digit_val a;
      if 1 <=? x then parse_rest x t else None
  | _ => None
  end.

Definition day_space_digit (s : string) : option datetime :=
  match s with
  | String " " t => day_one_digit t
  | _ => None
  end.

(** [None] is [ValueError]. *)
Definition strptime (s : string) : option datetime :=
  match day_two_digits s with
  | Some d => Some d
  | None =>
      match day_one_digit s with
      | Some d => Some d
      | None => day_space_digit s
      end
  end.

End Datetime.

Import Datetime.

(** ** Paths ([pathlib.Path])

    A path is the text up to and including its last separator and the
    final component ([name]); [path_str] is [str(path)], the key under
    which the file system stores the file. Text is taken as normalised. *)

Module Pathlib.

Record Path := mkpath { parent : string; name : string }.

Definition path_str (p : Path) : string := parent p +:+ name p.

Fixpoint ends_with_sep (s : string) : bool :=
  match s with
  | EmptyString => false
  | String c EmptyString => bool_decide (c = "/"%char)
  | String _ t => ends_with_sep t
  end.

Definition dir_prefix (dir : string) : string :=
  if decide (dir = "" ∨ dir = ".") then ""
  else if ends_with_sep dir then dir else dir +:+ "/".

(** [Path(dir) / name] for a plain relative [name]. *)
Definition joinpath (dir : string) (n : string) : Path :=
  mkpath (dir_prefix dir) n.

(** Length of the text up to and including the last separator. *)
Fixpoint parent_len (s : string) : nat :=
  match s with
  | EmptyString => O
  | String c t =>
      match parent_len t with
      | S k => S (S k)
      | O => if decide (c = "/"%char) then 1%nat else O
      end
  end.

(** [Path(text)]. *)
Definition of_string (s : string) : Path :=
  if decide (s = ".") then mkpath "" ""
  else mkpath (Str.take (parent_len s) s) (Str.drop (parent_len s) s).

(** [PurePath.suffix]: the text from the last dot of the name, unless
    that dot is the first or the last character. *)
Definition suffix (n : string) : string :=
  match Str.rfind_dot n with
  | Some i =>
      if bool_decide (0 < i)%nat && bool_decide (i < String.length n - 1)%nat
      then Str.drop i n else ""
  | None => ""
  end.

(** [PurePath.with_suffix]; [None] is [ValueError] (empty name). *)
Definition with_suffix (p : Path) (sfx : string) : option Path :=
  if decide (name p = "") then None
  else
    let n := name p in
    let old := suffix n in
    Some (mkpath (parent p)
            (Str.take (String.length n - String.length old) n +:+ sfx)).

End Pathlib.

Import Pathlib.

(** ** The world the scripts run in *)

(** Exceptions; every one is a subclass of [Exception], and
    [FileNotFoundError] is the only one handled by name. *)
Inductive exn :=
| ValueError
| OverflowError
| FileNotFoundError (p : string)
| FileExistsError (p : string)
| PermissionError (p : string)
| AttributeError
| RuntimeError (url : string)
| RequestException (url : string)
| HTTPError (status : Z)
| BadZipFile
| IndexError
| UnpicklingError.

(** Lines printed on the console, one constructor per [print] call. *)
Inductive line :=
| Downloaded (dest : string)
| FailedUrl (url : string) (e : exn)
| Compressed (n gz : string)
| InputNotFound (p : string)
| CompressionError (e : exn)
| ExtractedSaved (p : string)
| FailedDate (date_str : string) (e : exn)
| SkippingWeekend (day_text : string)
| Completed (n : nat).

Abbreviation Cookies := (gmap string string).

Record Response := mkresp {
  status_code : Z;
  content_type : option string;
  content : bytes;
  resp_cookies : Cookies
}.

(** - [files]: the regular files, by path text;
    - [denied]: paths at which creating, overwriting, renaming or removing
      a file raises [OSError] (no permission, missing parent directory);
    - [net]: what the origin answers to a GET, given the cookies sent and
      the URL; [None] is a connection error or a timeout;
    - [requests]: the URLs requested so far, oldest first;
    - [console]: the lines printed so far, oldest first. *)
Record World := mkworld {
  files : gmap string bytes;
  denied : gset string;
  net : Cookies → string → option Response;
  requests : list string;
  console : list line
}.

Inductive outcome (A : Type) :=
| Ret (a : A)
| Raise (e : exn)
| OutOfFuel.
Arguments Ret {A} a.
Arguments Raise {A} e.
Arguments OutOfFuel {A}.

(** A computation reads and updates the world and returns, raises, or
    exhausts the iteration bound of a loop. Effects made before an
    exception stay. *)
Definition M (A : Type) : Type := World → outcome A * World.

Definition ret {A} (a : A) : M A := λ w, (Ret a, w).
Definition raise {A} (e : exn) : M A := λ w, (Raise e, w).
Definition out_of_fuel {A} : M A := λ w, (OutOfFuel, w).

Definition bind {A B} (m : M A) (k : A → M B) : M B :=
  λ w, match m w with
       | (Ret a, w') => k a w'
       | (Raise e, w') => (Raise e, w')
       | (OutOfFuel, w') => (OutOfFuel, w')
       end.

(** [try: body  except Exception as e: handler e]. *)
Definition try_except {A} (body : M A) (handler : exn → M A) : M A :=
  λ w, match body w with
       | (Raise e, w') => handler e w'
       | r => r
       end.

Declare Scope py_scope.
Delimit Scope py_scope with py.
Notation "x <- c ;; k" := (bind c (λ x, k))
  (at level 100, c at next level, right associativity) : py_scope.
Notation "c ;;; k" := (bind c (λ _, k))
  (at level 100, right associativity) : py_scope.
Local Open Scope py_scope.

Definition or_raise {A} (o : option A) (e : exn) : M A :=
  match o with Some a => ret a | None => raise e end.

Definition set_files (f : gmap string bytes) (w : World) : World :=
  mkworld f (denied w) (net w) (requests w) (console w).

Definition add_line (l : line) (w : World) : World :=
  mkworld (files w) (denied w) (net w) (requests w) (console w ++ [l]).

Definition add_request (url : string) (w : World) : World :=
  mkworld (files w) (denied w) (net w) (requests w ++ [url]) (console w).

Definition print (l : line) : M unit := λ w, (Ret tt, add_line l w).

(** *** File system primitives *)

Definition path_exists (p : Path) : M bool :=
  λ w, (Ret (bool_decide (is_Some (files w !! path_str p))), w).

(** [open(p, 'rb')]. *)
Definition open_rb (p : Path) : M unit :=
  λ w, match files w !! path_str p with
       | Some _ => (Ret tt, w)
       | None => (Raise (FileNotFoundError (path_str p)), w)
       end.

(** Reading an open file to its end. *)
Definition read_all (p : Path) : M bytes :=
  λ w, match files w !! path_str p with
       | Some b => (Ret b, w)
       | None => (Raise (FileNotFoundError (path_str p)), w)
       end.

(** [open(p, 'wb')]: creates the file or truncates it. *)
Definition open_wb (p : Path) : M unit :=
  λ w, if decide (path_str p ∈ denied w)
       then (Raise (PermissionError (path_str p)), w)
       else (Ret tt, set_files (<[path_str p := []]> (files w)) w).

(** [f.write(data)] on a file opened for writing at [p]. *)
Definition write (p : Path) (data : bytes) : M unit :=
  λ w, (Ret tt,
        set_files (<[path_str p := default [] (files w !! path_str p) ++ data]> (files w)) w).

(** Replacing the contents of an open file when it is closed. *)
Definition store (p : Path) (data : bytes) : M unit :=
  λ w, (Ret tt, set_files (<[path_str p := data]> (files w)) w).

Definition unlink (p : Path) : M unit :=
  λ w, match files w !! path_str p with
       | None => (Raise (FileNotFoundError (path_str p)), w)
       | Some _ =>
           if decide (path_str p ∈ denied w)
           then (Raise (PermissionError (path_str p)), w)
           else (Ret tt, set_files (delete (path_str p) (files w)) w)
       end.

(** [src.rename(dst)]: replaces [dst] when it exists. *)
Definition rename (src dst : Path) : M unit :=
  λ w, match files w !! path_str src with
       | None => (Raise (FileNotFoundError (path_str src)), w)
       | Some b =>
           if decide (path_str src ∈ denied w) then (Raise (PermissionError (path_str src)), w)
           else if decide (path_str dst ∈ denied w) then (Raise (PermissionError (path_str dst)), w)
           else (Ret tt, set_files (<[path_str dst := b]> (delete (path_str src) (files w))) w)
       end.

(** [Path(dir).mkdir(parents=True, exist_ok=True)]: fails when a regular
    file is in the way or the directory may not be created. *)
Definition mkdir_p (dir : string) : M unit :=
  λ w, if decide (is_Some (files w !! dir)) then (Raise (FileExistsError dir), w)
       else if decide (dir ∈ denied w) then (Raise (PermissionError dir), w)
       else (Ret tt, w).

(** *** Splitting a byte stream into reads of at most [n] bytes *)

Fixpoint chunks_go (fuel n : nat) (l : bytes) : list bytes :=
  match fuel, l with
  | S f, _ :: _ => take n l :: chunks_go f n (drop n l)
  | _, _ => []
  end.

Definition chunks (n : nat) (l : bytes) : list bytes :=
  chunks_go (length l) n l.

Fixpoint for_each {A} (l : list A) (body : A → M unit) : M unit :=
  match l with
  | [] => ret tt
  | x :: t => body x ;;; for_each t body
  end.

(** *** Network *)

(** [requests.get] and [Session.get]: one request, with the cookies sent. *)
Definition http_get (jar : Cookies) (url : string) : M Response :=
  λ w, match net w jar url with
       | Some r => (Ret r, add_request url w)
       | None => (Raise (RequestException url), add_request url w)
       end.

Record Session := mksession {
  cookies : Cookies;
  headers : list (string * string)
}.

(** [session.cookies.update(c)]: the new cookies win. *)
Definition cookies_update (s : Session) (c : Cookies) : Session :=
  mksession (c ∪ cookies s) (headers s).

(** [session.get(url)]: the session keeps the cookies the response sets. *)
Definition session_get (s : Session) (url : string) : M (Response * Session) :=
  r <- http_get (cookies s) url ;;
  ret (r, cookies_update s (resp_cookies r)).

(** *** Byte formats of the libraries *)

Class Codecs := {
  gzip_compress : bytes → bytes;
  gzip_decompress : bytes → option bytes;
  (** the members of a zip archive in directory order; [None]: not a zip *)
  zip_members : bytes → option (list (string * bytes));
  pickle_dumps : Cookies → bytes;
  pickle_loads : bytes → option Cookies
}.

(** What the formats guarantee. *)
Class CodecLaws (C : Codecs) : Prop := {
  gzip_roundtrip : ∀ b, gzip_decompress (gzip_compress b) = Some b;
  pickle_roundtrip : ∀ c, pickle_loads (pickle_dumps c) = Some c
}.

(** An argument documented as "str or Path". *)
Inductive pathlike :=
| PStr (s : string)
| PPath (p : Path).

Definition to_path (a : pathlike) : Path :=
  match a with PStr s => of_string s | PPath p => p end.

(** The value a Python function hands back when it is not a path: a
    [bool], or [None] when the function ends without a [return]. *)
Inductive pyvalue :=
| PyBool (b : bool)
| PyNone.

Definition is_boolean (v : pyvalue) : Prop := ∃ b, v = PyBool b.

Definition TIMEOUT : Z := 20.

Definition HEADERS : list (string * string) :=
  [("User-Agent", "Mozilla/5.0"); ("Accept", "*/*");
   ("Accept-Encoding", "gzip, deflate");
   ("Referer", "https://www.nseindia.com")].

(** [shutil.COPY_BUFSIZE] on POSIX. *)
Definition COPY_BUFSIZE : nat := N.to_nat (64 * 1024).

(** ** Code that is the same text in both scripts *)

Section Shared.
Context {C : Codecs}.

(** [input_file_path.unlink()]: the call is made on the argument as it
    was passed, and a [str] has no such method. *)
Definition unlink_arg (a : pathlike) : M unit :=
  match a with
  | PStr _ => raise AttributeError
  | PPath p => unlink p
  end.

(** [shutil.copyfileobj(f_in, f_out)] into a gzip writer: the writer
    receives the input read by read, and the compressed stream is
    complete when the writer is closed. *)
Definition copyfileobj_gzip (f_in f_out : Path) : M unit :=
  data <- read_all f_in ;;
  let received := foldl (λ buf chunk, buf ++ chunk) [] (chunks COPY_BUFSIZE data) in
  store f_out (gzip_compress received).

(** runner_bse.py 38-66, runner_nse.py 76-104. *)
Definition compress_file (input_file_path : pathlike) : M pyvalue :=
  let input_path := to_path input_file_path in
  gz_path <- or_raise (with_suffix input_path ".csv.gz") ValueError ;;
  try_except
    (open_rb input_path ;;;
     open_wb gz_path ;;;
     copyfileobj_gzip input_path gz_path ;;;
     unlink_arg input_file_path ;;;
     print (Compressed (name input_path) (name gz_path)) ;;;
     ret (PyBool true))
    (λ e, match e with
          | FileNotFoundError _ =>
              print (InputNotFound (path_str input_path)) ;;; ret PyNone
          | _ => print (CompressionError e) ;;; ret PyNone
          end).

(** One turn of the [while] loop of the range driver: the body up to,
    and not including, [current += timedelta(days=1)]. *)
Definition range_body (per_date : string → string → M Path)
    (output_dir : string) (current : datetime)
    (downloaded_files : list Path) : M (list Path) :=
  if weekday current <? 5 then
    let date_str := Str.upper (strftime_dbY current) in
    try_except
      (file_path <- per_date date_str output_dir ;;
       ret (downloaded_files ++ [file_path]))
      (λ e, print (FailedDate date_str e) ;;; ret downloaded_files)
  else
    print (SkippingWeekend (strftime_A_d_b_Y current)) ;;;
    ret downloaded_files.

(** The [while current <= end] loop; [fuel] bounds the number of turns. *)
Fixpoint range_loop (per_date : string → string → M Path)
    (output_dir : string) (fuel : nat) (current end_ : datetime)
    (downloaded_files : list Path) : M (list Path) :=
  match fuel with
  | O => out_of_fuel
  | S fuel' =>
      if leb current end_ then
        downloaded_files <- range_body per_date output_dir current downloaded_files ;;
        current <- or_raise (add_one_day current) OverflowError ;;
        range_loop per_date output_dir fuel' current end_ downloaded_files
      else ret downloaded_files
  end.

(** More turns than there are days from [start] to [end_]. *)
Definition range_fuel (start end_ : datetime) : nat :=
  S (Z.to_nat (toordinal end_ - toordinal start + 1)).

(** runner_bse.py 102-130, runner_nse.py 150-178, for the per-date
    function of the script. *)
Definition range_driver (per_date : string → string → M Path)
    (start_date end_date output_dir : string) : M (list Path) :=
  start <- or_raise (strptime (Str.upper start_date)) ValueError ;;
  end_ <- or_raise (strptime (Str.upper end_date)) ValueError ;;
  downloaded_files <-
    range_loop per_date output_dir (range_fuel start end_) start end_ [] ;;
  print (Completed (length downloaded_files)) ;;;
  ret downloaded_files.

End Shared.

(** ** runner_bse.py *)

Module Bse.
Section Bse.
Context {C : Codecs}.

Definition BASE_URL : string := "https://www.bseindia.com/download/BhavCopy".

(** Lines 23-35. [None] is Python's [None]. *)
Definition download_file (url : string) (dest_path : Path) : M (option Path) :=
  try_except
    (response <- http_get ∅ url ;;
     if status_code response =? 200 then
       open_wb dest_path ;;;
       write dest_path (content response) ;;;
       print (Downloaded (path_str dest_path)) ;;;
       ret (Some dest_path)
     else raise (HTTPError (status_code response)))
    (λ e, print (FailedUrl url e) ;;; ret None).

Definition bhavcopy_url (date_obj : datetime) : string :=
  BASE_URL +:+ "/Equity/BhavCopy_BSE_CM_0_0_0_" +:+ strftime_Ymd date_obj
    +:+ "_F_0000.CSV".

(** Lines 69-99. *)
Definition download_bse_equity_bhavcopy (date_str output_dir : string) : M Path :=
  date_obj <- or_raise (strptime (Str.upper date_str)) ValueError ;;
  mkdir_p output_dir ;;;
  let url := bhavcopy_url date_obj in
  let file_path := joinpath output_dir (strftime_dbY date_obj +:+ ".csv") in
  download_file url file_path ;;;
  let final_filename := Str.upper (strftime_dbY date_obj) +:+ ".csv" in
  let final_path := joinpath output_dir final_filename in
  compress_file (PPath final_path) ;;;
  print (ExtractedSaved (path_str final_path)) ;;;
  ret final_path.

(** Lines 102-130. *)
Definition download_bhavcopy_range (start_date end_date output_dir : string)
    : M (list Path) :=
  range_driver download_bse_equity_bhavcopy start_date end_date output_dir.

End Bse.
End Bse.

(** ** runner_nse.py *)

Module Nse.
Section Nse.
Context {C : Codecs}.

Definition BASE_URL : string := "https://nsearchives.nseindia.com".
Definition cookies_dir : string := "../data".
Definition HOMEPAGE : string := "https://www.nseindia.com".

(** [iter_content(chunk_size=1024 * 1024)]. *)
Definition CHUNK_SIZE : nat := N.to_nat (1024 * 1024).

(** Lines 26-40. The session is a mutable object in the script; here the
    updated session is handed back. *)
Definition get_or_set_cookies (session : Session) (cookie_path : Path) : M Session :=
  present <- path_exists cookie_path ;;
  if (present : bool) then
    data <- read_all cookie_path ;;
    cookies <- or_raise (pickle_loads data) UnpicklingError ;;
    ret (cookies_update session cookies)
  else
    rs <- session_get session HOMEPAGE ;;
    let cookies := resp_cookies (fst rs) in
    open_wb cookie_path ;;;
    write cookie_path (pickle_dumps cookies) ;;;
    ret (cookies_update (snd rs) cookies).

(** Lines 43-58. *)
Definition download_file (session : Session) (url : string) (dest_path : Path) : M unit :=
  rs <- session_get session url ;;
  let response := fst rs in
  if Str.contains "text/html" (default "" (content_type response)) then
    raise (RuntimeError url)
  else
    open_wb dest_path ;;;
    for_each (chunks CHUNK_SIZE (content response)) (write dest_path).

(** [ZipFile.getinfo]: of several members with one name, the directory
    keeps the last. *)
Definition getinfo (n : string) (members : list (string * bytes)) : option bytes :=
  snd <$> (snd <$> list_find (λ m, fst m = n) (reverse members)).

(** Lines 61-73. Member names are taken as plain relative file names. *)
Definition extract_file (file : Path) (extract_to : string) : M Path :=
  archive <- read_all file ;;
  members <- or_raise (zip_members archive) BadZipFile ;;
  first_file <- or_raise (head (fst <$> members)) IndexError ;;
  body <- or_raise (getinfo first_file members) BadZipFile ;;
  let extracted_path := joinpath extract_to first_file in
  open_wb extracted_path ;;;
  write extracted_path body ;;;
  unlink file ;;;
  ret extracted_path.

Definition zip_filename (date_obj : datetime) : string :=
  "BhavCopy_NSE_CM_0_0_0_" +:+ strftime_Ymd date_obj +:+ "_F_0000.csv.zip".

(** Lines 107-147. *)
Definition download_nse_equity_bhavcopy (date_str output_dir : string) : M Path :=
  date_obj <- or_raise (strptime (Str.upper date_str)) ValueError ;;
  mkdir_p output_dir ;;;
  let session := mksession ∅ HEADERS in
  let cookie_path := joinpath cookies_dir "nse_cookies.pkl" in
  session <- get_or_set_cookies session cookie_path ;;
  let zip_url := BASE_URL +:+ "/content/cm/" +:+ zip_filename date_obj in
  let zip_path := joinpath output_dir (zip_filename date_obj) in
  download_file session zip_url zip_path ;;;
  extracted <- extract_file zip_path output_dir ;;
  let final_filename := strftime_Ymd date_obj +:+ ".csv" in
  let final_path := joinpath output_dir final_filename in
  rename extracted final_path ;;;
  compress_file (PPath final_path) ;;;
  print (ExtractedSaved (path_str final_path)) ;;;
  ret final_path.

(** Lines 150-178. *)
Definition download_bhavcopy_range (start_date end_date output_dir : string)
    : M (list Path) :=
  range_driver download_nse_equity_bhavcopy start_date end_date output_dir.

End Nse.
End Nse.

(** ** A concrete instance of the byte formats, for running the model

    A gzip stream is the two magic bytes followed by the data as stored;
    an archive is a signature and its members, each a one-byte name
    length, the name, a one-byte data length and the data (enough for
    short examples); a cookie jar is written as the binary digits of its
    code. *)

Module Toy.

Definition to_byte (c : ascii) : Byte.byte := byte_of_ascii c.
Definition of_byte (b : Byte.byte) : ascii := ascii_of_byte b.

Fixpoint text_bytes (s : string) : bytes :=
  match s with
  | EmptyString => []
  | String c t => to_byte c :: text_bytes t
  end.

Fixpoint bytes_text (b : bytes) : string :=
  match b with
  | [] => EmptyString
  | x :: t => String (of_byte x) (bytes_text t)
  end.

Definition gz (b : bytes) : bytes := Byte.x1f :: Byte.x8b :: b.

Definition gunzip (b : bytes) : option bytes :=
  match b with
  | Byte.x1f :: Byte.x8b :: t => Some t
  | _ => None
  end.

Definition len_byte (n : nat) : Byte.byte :=
  default Byte.x00 (Byte.of_N (N.of_nat n mod 256)).

Definition pack_member (m : string * bytes) : bytes :=
  len_byte (String.length (fst m)) :: text_bytes (fst m) ++
  len_byte (length (snd m)) :: snd m.

Definition pack (members : list (string * bytes)) : bytes :=
  Byte.x50 :: Byte.x4b :: mbind pack_member members.

Fixpoint unpack_go (fuel : nat) (b : bytes) : option (list (string * bytes)) :=
  match fuel, b with
  | _, [] => Some []
  | O, _ => None
  | S f, n :: t =>
      let k := N.to_nat (Byte.to_N n) in
      match drop k t with
      | m :: t' =>
          let j := N.to_nat (Byte.to_N m) in
          if decide (k <= length t ∧ j <= length t')%nat then
            rest ← unpack_go f (drop j t');
            Some ((bytes_text (take k t), take j t') :: rest)
          else None
      | [] => None
      end
  end.

Definition unpack (b : bytes) : option (list (string * bytes)) :=
  match b with
  | Byte.x50 :: Byte.x4b :: t => unpack_go (length t) t
  | _ => None
  end.

Fixpoint pos_bytes (p : positive) : bytes :=
  match p with
  | xH => []
  | xO q => Byte.x00 :: pos_bytes q
  | xI q => Byte.x01 :: pos_bytes q
  end.

Fixpoint bytes_pos (b : bytes) : option positive :=
  match b with
  | [] => Some xH
  | Byte.x00 :: t => xO <$> bytes_pos t
  | Byte.x01 :: t => xI <$> bytes_pos t
  | _ => None
  end.

Definition dumps (c : Cookies) : bytes := pos_bytes (encode c).

Definition loads (b : bytes) : option Cookies := bytes_pos b ≫= decode.

Definition codecs : Codecs :=
  {| gzip_compress := gz; gzip_decompress := gunzip;
     zip_members := unpack;
     pickle_dumps := dumps; pickle_loads := loads |}.

End Toy.

(** ** Vocabulary of the statements *)

(** [n] consecutive days, the first being [d]. *)
Fixpoint days_from (n : nat) (d : datetime) : list datetime :=
  match n with
  | O => []
  | S k => d :: days_from k (next_day d)
  end.

(** The days [d] with [start <= d <= end_], in order. *)
Definition dates_in_range (start end_ : datetime) : list datetime :=
  days_from (Z.to_nat (toordinal end_ - toordinal start + 1)) start.

Definition is_weekday (d : datetime) : bool := weekday d <? 5.

Definition weekdays_in_range (start end_ : datetime) : nat :=
  length (filter (λ d, is_weekday d = true) (dates_in_range start end_)).

(** The loop body run on each day of a list, in order. *)
Fixpoint run_dates `{C : Codecs} (per_date : string → string → M Path)
    (output_dir : string) (ds : list datetime) (acc : list Path) : M (list Path) :=
  match ds with
  | [] => ret acc
  | d :: t =>
      acc' <- range_body per_date output_dir d acc ;;
      run_dates per_date output_dir t acc'
  end.

(** A computation that never exhausts a loop bound. *)
Definition terminates {A} (m : M A) : Prop := ∀ w, fst (m w) ≠ OutOfFuel.

(** The marker the downloader of exchange B looks for in [Content-Type]. *)
Definition is_html (r : Response) : Prop :=
  Str.contains "text/html" (default "" (content_type r)) = true.

Fixpoint last_char (s : string) : option ascii :=
  match s with
  | EmptyString => None
  | String c t => match last_char t with Some x => Some x | None => Some c end
  end.

(** The files of one date, by exchange.
    Exchange A: the raw download, the name the compressor is given, and
    [<outdir>/<DDMMMYYYY>.csv.gz]. *)
Definition bse_raw_path (outdir : string) (d : datetime) : Path :=
  joinpath outdir (strftime_dbY d +:+ ".csv").
Definition bse_csv_path (outdir : string) (d : datetime) : Path :=
  joinpath outdir (Str.upper (strftime_dbY d) +:+ ".csv").
Definition bse_gz_path (outdir : string) (d : datetime) : Path :=
  joinpath outdir (Str.upper (strftime_dbY d) +:+ ".csv.gz").

(** Exchange B: the archive, the renamed CSV, and
    [<outdir>/<YYYYMMDD>.csv.gz]. *)
Definition nse_zip_url (d : datetime) : string :=
  Nse.BASE_URL +:+ "/content/cm/" +:+ Nse.zip_filename d.
Definition nse_zip_path (outdir : string) (d : datetime) : Path :=
  joinpath outdir (Nse.zip_filename d).
Definition nse_csv_path (outdir : string) (d : datetime) : Path :=
  joinpath outdir (strftime_Ymd d +:+ ".csv").
Definition nse_gz_path (outdir : string) (d : datetime) : Path :=
  joinpath outdir (strftime_Ymd d +:+ ".csv.gz").
Definition nse_cookie_path : Path := joinpath Nse.cookies_dir "nse_cookies.pkl".

(** What ends the loop after [n] turns: past [end_] it returns; at the
    last day a [datetime] can hold, the step to the next day raises. *)
Definition loop_exit (n : nat) (end_ : datetime) (acc : list Path) : M (list Path) :=
  if decide (n = O ∨ toordinal end_ < MAXORDINAL) then ret acc else raise OverflowError.

(** Exchange B, after a run: neither the archive nor the uncompressed CSV
    of the date is on disk. *)
Definition nse_intermediates_gone (outdir : string) (d : datetime) (w : World) : Prop :=
  files w !! path_str (nse_zip_path outdir d) = None ∧
  files w !! path_str (nse_csv_path outdir d) = None.

(** Exchange B: the steps of the per-date pipeline after the cookies. *)
Definition nse_steps `{C : Codecs} (session : Session) (outdir : string)
    (d : datetime) : M Path :=
  bind (Nse.download_file session (nse_zip_url d) (nse_zip_path outdir d)) (λ _,
  bind (Nse.extract_file (nse_zip_path outdir d) outdir) (λ extracted,
  bind (rename extracted (nse_csv_path outdir d)) (λ _,
  bind (compress_file (PPath (nse_csv_path outdir d))) (λ _,
  bind (print (ExtractedSaved (path_str (nse_csv_path outdir d)))) (λ _,
  ret (nse_csv_path outdir d)))))).

(** A directory that [mkdir] accepts: no regular file has its name and
    it may be created. *)
Definition dir_usable (outdir : string) (w : World) : Prop :=
  files w !! outdir = None ∧ outdir ∉ denied w.

(** A computation that makes no request. *)
Definition no_request {A} (m : M A) : Prop :=
  ∀ w, requests (snd (m w)) = requests w.

(** ** Worlds for running the model *)

Module Sample.

Definition csv_bytes : bytes := Toy.text_bytes "SYMBOL,CLOSE".

Definition no_files : gmap string bytes := ∅.

(** An origin that answers every request with a 404 page. *)
Definition origin_404 : Cookies → string → option Response :=
  λ _ _, Some (mkresp 404 (Some "text/html") [] ∅).

(** An origin that serves the CSV of exchange A for every date. *)
Definition origin_csv : Cookies → string → option Response :=
  λ _ _, Some (mkresp 200 (Some "text/csv") csv_bytes ∅).

(** An origin of exchange B: a homepage that sets a cookie, and for any
    other URL a one-member archive. *)
Definition origin_zip : Cookies → string → option Response :=
  λ _ url,
    if decide (url = Nse.HOMEPAGE)
    then Some (mkresp 200 (Some "text/html") [] {["nsit" := "abc"]})
    else Some (mkresp 200 (Some "application/zip")
                 (Toy.pack [("BhavCopy_NSE_CM.csv", csv_bytes)]) ∅).

(** An origin of exchange B that answers a download with bytes that are
    neither an HTML page nor an archive. *)
Definition origin_garbage : Cookies → string → option Response :=
  λ _ url,
    if decide (url = Nse.HOMEPAGE)
    then Some (mkresp 200 (Some "text/html") [] {["nsit" := "abc"]})
    else Some (mkresp 200 (Some "application/octet-stream") csv_bytes ∅).

Definition world (origin : Cookies → string → option Response) : World :=
  mkworld no_files ∅ origin [] [].

Definition jan1 : datetime := mkdate 2024 1 1.

(** An origin that answers every request with an HTML page. *)
Definition html_page : Response := mkresp 200 (Some "text/html; charset=utf-8") [] ∅.

Definition origin_html : Cookies → string → option Response := λ _ _, Some html_page.

Definition jar0 : Cookies := {["nsit" := "abc"]}.

(** A world in which the cookie file of exchange B is already there. *)
Definition world_with_cookies : World :=
  mkworld {[path_str nse_cookie_path := Toy.dumps jar0]} ∅ origin_zip [] [].

(** A world with one CSV on disk. *)
Definition world_with_csv : World :=
  mkworld {["out/20240101.csv" := csv_bytes]} ∅ origin_404 [] [].

(** An origin that answers every request with a 404 in JSON. *)
Definition json_404 : Response :=
  mkresp 404 (Some "application/json") (Toy.text_bytes "{}") ∅.

Definition origin_json_404 : Cookies → string → option Response :=
  λ _ _, Some json_404.

(** A world holding an archive of two members, and one holding an
    archive without members. *)
Definition two_members : list (string * bytes) :=
  [("a.csv", csv_bytes); ("b.csv", Toy.text_bytes "other")].

Definition world_with_zip (members : list (string * bytes)) : World :=
  mkworld {["out/x.zip" := Toy.pack members]} ∅ origin_404 [] [].

(** A world whose cookie file of exchange B cannot be unpickled. *)
Definition world_bad_cookies : World :=
  mkworld {[path_str nse_cookie_path := [Byte.xff]]} ∅ origin_zip [] [].

End Sample.

(** * Properties *)

(** ** Text and dates *)

Section TextFacts.

Lemma digit_range (n : Z) : 0 <= n mod 10 <= 9.
Proof. pose proof (Z.mod_pos_bound n 10). lia. Qed.

Lemma small_cases (k : Z) :
  0 <= k <= 9 →
  k = 0 ∨ k = 1 ∨ k = 2 ∨ k = 3 ∨ k = 4 ∨ k = 5 ∨ k = 6 ∨ k = 7 ∨ k = 8 ∨ k = 9.
Proof. lia. Qed.

Ltac digit_cases k :=
  let H := fresh in
  intros H; apply small_cases in H;
  repeat (destruct H as [H | H]); subst k; try reflexivity.

Lemma digit_val_char (k : Z) :
  0 <= k <= 9 → Str.digit_val (Str.digit_char k) = Some k.
Proof. digit_cases k. Qed.

Lemma upper_digit_char (k : Z) :
  0 <= k <= 9 → Str.upper_char (Str.digit_char k) = Str.digit_char k.
Proof. digit_cases k. Qed.

Lemma digit_char_not_dot (k : Z) : Str.digit_char k ≠ "."%char.
Proof.
  destruct (decide (0 <= k <= 8)) as [H | H].
  - assert (Hk : 0 <= k <= 9) by lia. revert Hk. clear H.
    digit_cases k; discriminate.
  - unfold Str.digit_char.
    destruct k as [| p | p]; try lia; try discriminate.
    do 4 (destruct p as [p | p |]; try discriminate; try lia).
Qed.

Lemma app_cons (c : ascii) (s t : string) : String c s +:+ t = String c (s +:+ t).
Proof. reflexivity. Qed.

Lemma app_nil_l (t : string) : "" +:+ t = t.
Proof. reflexivity. Qed.

Lemma upper_app (s t : string) : Str.upper (s +:+ t) = Str.upper s +:+ Str.upper t.
Proof.
  induction s as [| c s IH]; [reflexivity |].
  rewrite app_cons. cbn [Str.upper]. by rewrite IH, app_cons.
Qed.

Lemma upper_fmt2 (n : Z) : Str.upper (Str.fmt2 n) = Str.fmt2 n.
Proof.
  unfold Str.fmt2. cbn.
  by rewrite !upper_digit_char by apply digit_range.
Qed.

Lemma upper_fmt4 (n : Z) : Str.upper (Str.fmt4 n) = Str.fmt4 n.
Proof.
  unfold Str.fmt4. cbn [Str.upper]. rewrite upper_fmt2.
  by rewrite !upper_digit_char by apply digit_range.
Qed.

Lemma parse_year_fmt4 (y : Z) : 0 <= y <= 9999 → parse_year (Str.fmt4 y) = Some y.
Proof.
  intros Hy. unfold Str.fmt4, Str.fmt2, parse_year.
  rewrite !digit_val_char by apply digit_range. cbn.
  f_equal. 
  pose proof (Z.div_mod y 10 ltac:(lia)).
  pose proof (Z.div_mod (y / 10) 10 ltac:(lia)).
  pose proof (Z.div_mod (y / 100) 10 ltac:(lia)).
  assert (y / 1000 mod 10 = y / 1000).
  { apply Z.mod_small. split; [apply Z.div_pos; lia | apply Z.div_lt_upper_bound; lia]. }
  assert (y / 100 = y / 10 / 10) by (rewrite Z.div_div by lia; reflexivity).
  assert (y / 1000 = y / 100 / 10) by (rewrite Z.div_div by lia; reflexivity).
  lia.
Qed.

End TextFacts.

Section DateText.

Lemma valid_b_bounds (d : datetime) :
  valid_b d = true →
  1 <= year d <= 9999 ∧ 1 <= month d <= 12 ∧
  1 <= day d <= days_in_month (year d) (month d).
Proof. unfold valid_b, MINYEAR, MAXYEAR. intros H. repeat (apply andb_prop in H as [H ?]). lia. Qed.

Lemma days_in_month_le_31 (y m : Z) : days_in_month y m <= 31.
Proof.
  unfold days_in_month.
  repeat match goal with
         | |- context [match ?x with _ => _ end] => destruct x
         end; lia.
Qed.

Lemma day_two_digits_fmt2 (dd : Z) (rest : string) :
  1 <= dd <= 31 →
  day_two_digits (Str.fmt2 dd +:+ rest) = parse_rest dd rest.
Proof.
  intros Hdd. unfold Str.fmt2. rewrite !app_cons, app_nil_l.
  cbn [day_two_digits].
  rewrite !digit_val_char by apply digit_range. cbn [mbind option_bind].
  assert (Hx : dd / 10 mod 10 = dd / 10).
  { apply Z.mod_small. split; [apply Z.div_pos; lia | apply Z.div_lt_upper_bound; lia]. }
  pose proof (Z.div_mod dd 10 ltac:(lia)) as Hdm.
  pose proof (digit_range dd) as Hy.
  rewrite Hx.
  replace (10 * (dd / 10) + dd mod 10) with dd by lia.
  set (x := dd / 10) in *. set (y := dd mod 10) in *.
  assert (Hok : ((x =? 3) && (y <=? 1)) || ((1 <=? x) && (x <=? 2))
                || ((x =? 0) && (1 <=? y)) = true).
  { destruct (Z.eqb_spec x 3), (Z.leb_spec y 1), (Z.leb_spec 1 x),
      (Z.leb_spec x 2), (Z.eqb_spec x 0), (Z.leb_spec 1 y); cbn; try reflexivity; lia. }
  by rewrite Hok.
Qed.

Lemma parse_rest_month_year (d : datetime) :
  valid_b d = true →
  parse_rest (day d) (Str.upper (month_abbr (month d)) +:+ Str.fmt4 (year d)) = Some d.
Proof.
  intros Hv. pose proof (valid_b_bounds d Hv) as (Hy & Hm & _).
  destruct d as [y m dd]. cbn [year month day] in *.
  assert (Hy' : parse_year (Str.fmt4 y) = Some y) by (apply parse_year_fmt4; lia).
  assert (Hcases : m = 1 ∨ m = 2 ∨ m = 3 ∨ m = 4 ∨ m = 5 ∨ m = 6 ∨ m = 7 ∨
                   m = 8 ∨ m = 9 ∨ m = 10 ∨ m = 11 ∨ m = 12) by lia.
  repeat (destruct Hcases as [Hcases | Hcases]); subst m;
    cbn [month_abbr Str.upper]; rewrite !app_cons, app_nil_l;
    cbn [parse_rest];
    match goal with
    | |- context [parse_month ?a ?b ?c] =>
        let r := eval vm_compute in (parse_month a b c) in
        change (parse_month a b c) with r
    end;
    cbn [mbind option_bind]; rewrite Hy'; cbn [mbind option_bind]; by rewrite Hv.
Qed.

(** The text the range driver hands to the per-date function parses back
    to the day it was built from. *)
Lemma strptime_strftime (d : datetime) :
  valid_b d = true →
  strptime (Str.upper (Str.upper (strftime_dbY d))) = Some d.
Proof.
  intros Hv. pose proof (valid_b_bounds d Hv) as (_ & _ & Hd).
  pose proof (days_in_month_le_31 (year d) (month d)).
  unfold strftime_dbY.
  rewrite !upper_app, !upper_fmt2, !upper_fmt4.
  assert (Hup : ∀ s, Str.upper (Str.upper s) = Str.upper s).
  { clear. induction s as [| c s IH]; [reflexivity |]. cbn [Str.upper]. rewrite IH. f_equal.
    unfold Str.upper_char.
    destruct ((97 <=? N_of_ascii c)%N && (N_of_ascii c <=? 122)%N) eqn:E; [| by rewrite E].
    apply andb_prop in E as [E1 E2]. apply N.leb_le in E1, E2.
    rewrite N_ascii_embedding by lia.
    destruct (97 <=? N_of_ascii c - 32)%N eqn:E3; [| reflexivity].
    apply N.leb_le in E3.
    destruct (N_of_ascii c - 32 <=? 122)%N eqn:E4; cbn; [| reflexivity].
    lia. }
  rewrite Hup. unfold strptime.
  rewrite day_two_digits_fmt2 by lia.
  by rewrite parse_rest_month_year.
Qed.

End DateText.

(** ** The calendar *)

Section Calendar.

Ltac month_cases m :=
  let H := fresh "Hm" in
  assert (H : m = 1 ∨ m = 2 ∨ m = 3 ∨ m = 4 ∨ m = 5 ∨ m = 6 ∨ m = 7 ∨
              m = 8 ∨ m = 9 ∨ m = 10 ∨ m = 11 ∨ m = 12) by lia;
  repeat (destruct H as [H | H]); subst m.

Lemma days_before_year_succ (y : Z) :
  days_before_year (y + 1) = days_before_year y + 365 + (if is_leap y then 1 else 0).
Proof.
  unfold days_before_year, is_leap. cbv zeta.
  replace (y + 1 - 1) with y by lia.
  destruct (Z.eqb_spec (y mod 4) 0), (Z.eqb_spec (y mod 100) 0),
    (Z.eqb_spec (y mod 400) 0); cbn [negb andb orb];
    Z.div_mod_to_equations; lia.
Qed.

Lemma days_before_year_mono (a b : Z) :
  a <= b → days_before_year a <= days_before_year b.
Proof.
  intros H. unfold days_before_year. cbv zeta.
  Z.div_mod_to_equations. lia.
Qed.

Lemma days_before_month_succ (y m : Z) :
  1 <= m < 12 →
  days_before_month y (m + 1) = days_before_month y m + days_in_month y m.
Proof.
  intros H. month_cases m; try lia;
    unfold days_before_month, days_in_month; cbn; destruct (is_leap y); reflexivity.
Qed.

Lemma days_before_month_12 (y : Z) :
  days_before_month y 12 + 31 = 365 + (if is_leap y then 1 else 0).
Proof. unfold days_before_month. cbn. destruct (is_leap y); reflexivity. Qed.

Lemma days_in_month_pos (y m : Z) : 28 <= days_in_month y m.
Proof.
  unfold days_in_month.
  repeat match goal with
         | |- context [match ?x with _ => _ end] => destruct x
         end; lia.
Qed.

Lemma days_before_month_mono (y m m' : Z) :
  1 <= m → m < m' → m' <= 12 →
  days_before_month y m + days_in_month y m <= days_before_month y m'.
Proof.
  intros H1 H2 H3.
  assert (Hstep : ∀ k : nat, (1 <= m + Z.of_nat k < 12) →
            days_before_month y m + days_in_month y m
            <= days_before_month y (m + Z.of_nat k + 1)).
  { induction k as [| k IH]; intros Hk.
    - replace (m + Z.of_nat 0) with m in * by lia.
      rewrite days_before_month_succ by lia. lia.
    - replace (m + Z.of_nat (S k)) with (m + Z.of_nat k + 1) in * by lia.
      rewrite days_before_month_succ by lia.
      pose proof (days_in_month_pos y (m + Z.of_nat k + 1)).
      specialize (IH ltac:(lia)). lia. }
  specialize (Hstep (Z.to_nat (m' - m - 1)) ltac:(lia)).
  replace (m + Z.of_nat (Z.to_nat (m' - m - 1)) + 1) with m' in Hstep by lia.
  exact Hstep.
Qed.

Lemma days_before_month_bounds (y m : Z) :
  1 <= m <= 12 →
  0 <= days_before_month y m ∧
  days_before_month y m + days_in_month y m <= 365 + (if is_leap y then 1 else 0).
Proof.
  intros H. month_cases m;
    unfold days_before_month, days_in_month; cbn; destruct (is_leap y); lia.
Qed.

(** Adding the calendar successor is adding one to the day count. *)
Lemma toordinal_next_day (d : datetime) :
  valid_b d = true → toordinal (next_day d) = toordinal d + 1.
Proof.
  intros Hv. pose proof (valid_b_bounds d Hv) as (Hy & Hm & Hd).
  destruct d as [y m dd]. cbn [year month day] in *.
  unfold next_day, toordinal. cbn [year month day].
  destruct (Z.ltb_spec dd (days_in_month y m)); cbn [year month day]; [lia |].
  destruct (Z.ltb_spec m 12); cbn [year month day].
  - rewrite days_before_month_succ by lia. lia.
  - assert (m = 12) by lia. subst m.
    rewrite days_before_year_succ.
    pose proof (days_before_month_12 y).
    assert (days_in_month y 12 = 31) by reflexivity.
    assert (days_before_month (y + 1) 1 = 0) by reflexivity.
    lia.
Qed.

Lemma toordinal_bounds (d : datetime) :
  valid_b d = true →
  days_before_year (year d) + days_before_month (year d) (month d) + 1 <= toordinal d
  ∧ toordinal d <= days_before_year (year d) + days_before_month (year d) (month d)
                   + days_in_month (year d) (month d).
Proof.
  intros Hv. pose proof (valid_b_bounds d Hv) as (Hy & Hm & Hd).
  unfold toordinal. lia.
Qed.

(** The comparison of datetimes is the comparison of their day counts. *)
Lemma leb_toordinal (a b : datetime) :
  valid_b a = true → valid_b b = true →
  leb a b = true ↔ toordinal a <= toordinal b.
Proof.
  intros Ha Hb.
  pose proof (valid_b_bounds a Ha) as (Hya & Hma & Hda).
  pose proof (valid_b_bounds b Hb) as (Hyb & Hmb & Hdb).
  pose proof (toordinal_bounds a Ha) as [La Ua].
  pose proof (toordinal_bounds b Hb) as [Lb Ub].
  pose proof (days_before_month_bounds (year a) (month a) Hma) as [? ?].
  pose proof (days_before_month_bounds (year b) (month b) Hmb) as [? ?].
  unfold leb.
  destruct (Z.ltb_spec (year a) (year b)) as [Hlt | Hge].
  { split; [intros _ | reflexivity].
    pose proof (days_before_year_mono (year a + 1) (year b) ltac:(lia)).
    rewrite days_before_year_succ in *. lia. }
  destruct (Z.ltb_spec (year b) (year a)) as [Hlt | Hge'].
  { split; [discriminate | intros Hle; exfalso].
    pose proof (days_before_year_mono (year b + 1) (year a) ltac:(lia)).
    rewrite days_before_year_succ in *. lia. }
  assert (Hy : year a = year b) by lia. rewrite Hy in *.
  destruct (Z.ltb_spec (month a) (month b)) as [Hlt | Hmge].
  { split; [intros _ | reflexivity].
    pose proof (days_before_month_mono (year b) (month a) (month b)
                  ltac:(lia) Hlt ltac:(lia)). lia. }
  destruct (Z.ltb_spec (month b) (month a)) as [Hlt | Hmge'].
  { split; [discriminate | intros Hle; exfalso].
    pose proof (days_before_month_mono (year b) (month b) (month a)
                  ltac:(lia) Hlt ltac:(lia)). lia. }
  assert (Hm : month a = month b) by lia.
  unfold toordinal. rewrite Hy, Hm. rewrite Z.leb_le. lia.
Qed.

Lemma toordinal_range (d : datetime) :
  valid_b d = true → 1 <= toordinal d <= MAXORDINAL.
Proof.
  intros Hv. pose proof (valid_b_bounds d Hv) as (Hy & Hm & Hd).
  pose proof (toordinal_bounds d Hv) as [L U].
  pose proof (days_before_month_bounds (year d) (month d) Hm) as [? ?].
  pose proof (days_before_year_mono 1 (year d) ltac:(lia)).
  pose proof (days_before_year_mono (year d + 1) 10000 ltac:(lia)) as Hmax.
  rewrite days_before_year_succ in Hmax.
  change (days_before_year 1) with 0 in *.
  change (days_before_year 10000) with 3652059 in *.
  unfold MAXORDINAL. lia.
Qed.

Lemma next_day_valid (d : datetime) :
  valid_b d = true → toordinal d < MAXORDINAL → valid_b (next_day d) = true.
Proof.
  intros Hv Hlt. pose proof (valid_b_bounds d Hv) as (Hy & Hm & Hd).
  assert (Hnot : ¬ (year d = 9999 ∧ month d = 12 ∧ day d = 31)).
  { intros (E1 & E2 & E3). destruct d as [y m dd]. cbn in *. subst.
    vm_compute in Hlt. discriminate. }
  destruct d as [y m dd]. cbn [year month day] in *.
  unfold next_day, valid_b, MINYEAR, MAXYEAR. cbn [year month day].
  pose proof (days_in_month_pos y (m + 1)).
  pose proof (days_in_month_le_31 y m).
  destruct (Z.ltb_spec dd (days_in_month y m)); cbn [year month day].
  { repeat (apply andb_true_intro; split); lia. }
  destruct (Z.ltb_spec m 12); cbn [year month day].
  { repeat (apply andb_true_intro; split); lia. }
  assert (m = 12) by lia. subst m.
  assert (days_in_month y 12 = 31) by reflexivity.
  assert (days_in_month (y + 1) 1 = 31) by reflexivity.
  repeat (apply andb_true_intro; split); lia.
Qed.

Lemma add_one_day_spec (d : datetime) :
  add_one_day d =
  if decide (toordinal d < MAXORDINAL) then Some (next_day d) else None.
Proof.
  unfold add_one_day.
  destruct (Z.leb_spec (toordinal d + 1) MAXORDINAL); case_decide; try reflexivity; lia.
Qed.

Lemma weekday_range (d : datetime) : 0 <= weekday d < 7.
Proof. unfold weekday. apply Z.mod_pos_bound. lia. Qed.

End Calendar.

(** ** Text of paths *)

Section PathFacts.

Lemma str_length_app (s t : string) :
  String.length (s +:+ t) = (String.length s + String.length t)%nat.
Proof.
  induction s as [| c s IH]; [reflexivity |].
  rewrite app_cons. cbn [String.length]. by rewrite IH.
Qed.

Lemma str_take_drop (i : nat) (s : string) : Str.take i s +:+ Str.drop i s = s.
Proof.
  revert i. induction s as [| c s IH]; intros [| i]; try reflexivity.
  cbn [Str.take Str.drop]. by rewrite app_cons, IH.
Qed.

Lemma str_length_drop (i : nat) (s : string) :
  String.length (Str.drop i s) = (String.length s - i)%nat.
Proof.
  revert i. induction s as [| c s IH]; intros [| i]; try reflexivity.
  cbn [Str.drop String.length]. by rewrite IH.
Qed.

Lemma str_take_all (s : string) : Str.take (String.length s) s = s.
Proof. induction s as [| c s IH]; [reflexivity |]. cbn. by rewrite IH. Qed.

Lemma rfind_dot_bound (s : string) (i : nat) :
  Str.rfind_dot s = Some i → (i < String.length s)%nat.
Proof.
  revert i. induction s as [| c s IH]; intros i; cbn; [discriminate |].
  destruct (Str.rfind_dot s) as [j |].
  - intros [= <-]. specialize (IH j eq_refl). lia.
  - case_decide; [intros [= <-]; lia | discriminate].
Qed.

(** From the last dot on, a name is a dot and dot-free text. *)
Lemma rfind_dot_drop (s : string) (i : nat) :
  Str.rfind_dot s = Some i →
  ∃ rest, Str.drop i s = String "." rest ∧ Str.rfind_dot rest = None.
Proof.
  revert i. induction s as [| c s IH]; intros i; cbn [Str.rfind_dot]; [discriminate |].
  destruct (Str.rfind_dot s) as [j |] eqn:E.
  - intros [= <-]. cbn [Str.drop]. by apply IH.
  - case_decide as Hc; [| discriminate]. intros [= <-]. subst c.
    exists s. by cbn.
Qed.

Lemma rfind_dot_app_None (s t : string) :
  Str.rfind_dot s = None → Str.rfind_dot t = None → Str.rfind_dot (s +:+ t) = None.
Proof.
  intros Hs Ht. induction s as [| c s IH]; [done |].
  rewrite app_cons. cbn [Str.rfind_dot] in *.
  destruct (Str.rfind_dot s); [discriminate |].
  rewrite IH by done. by case_decide.
Qed.

(** The last dot of dot-free text followed by a dotted extension. *)
Lemma rfind_dot_ext (s ext : string) :
  Str.rfind_dot s = None → Str.rfind_dot ext = None →
  Str.rfind_dot (s +:+ String "." ext) = Some (String.length s).
Proof.
  intros Hs He. induction s as [| c s IH].
  - rewrite app_nil_l. cbn [Str.rfind_dot]. rewrite He. by case_decide.
  - rewrite app_cons. cbn [Str.rfind_dot String.length] in *.
    destruct (Str.rfind_dot s); [discriminate |].
    by rewrite IH.
Qed.

Lemma str_take_app_length (s t : string) : Str.take (String.length s) (s +:+ t) = s.
Proof.
  induction s as [| c s IH]; [by destruct t |].
  rewrite app_cons. cbn. by rewrite IH.
Qed.

Lemma str_drop_app_length (s t : string) : Str.drop (String.length s) (s +:+ t) = t.
Proof. induction s as [| c s IH]; [by destruct t |]. by rewrite app_cons. Qed.

(** [with_suffix] on a dot-free stem with the extension [.csv]. *)
Lemma with_suffix_csv (dir stem : string) :
  stem ≠ "" → Str.rfind_dot stem = None →
  with_suffix (mkpath dir (stem +:+ ".csv")) ".csv.gz"
  = Some (mkpath dir (stem +:+ ".csv.gz")).
Proof.
  intros Hne Hnd. unfold with_suffix. cbn [name parent].
  case_decide as Hn.
  { destruct stem; [done | by rewrite app_cons in Hn]. }
  f_equal. f_equal. unfold suffix.
  rewrite (rfind_dot_ext stem "csv") by done.
  assert (Hlen : (0 < String.length stem)%nat) by (destruct stem; [done | cbn; lia]).
  rewrite str_length_app. cbn [String.length].
  rewrite bool_decide_true by lia. rewrite bool_decide_true by lia.
  cbn [andb]. rewrite str_drop_app_length. cbn [String.length].
  replace (String.length stem + 4 - 4)%nat with (String.length stem) by lia.
  by rewrite str_take_app_length.
Qed.

(** The compressed sibling is never the input itself. *)
Lemma with_suffix_fresh (p gz : Path) :
  with_suffix p ".csv.gz" = Some gz → path_str gz ≠ path_str p.
Proof.
  unfold with_suffix. case_decide as Hn; [discriminate |]. intros [= <-].
  unfold path_str. cbn [parent name]. intros Heq.
  apply (inj (String.app (parent p))) in Heq.
  unfold suffix in Heq.
  destruct (Str.rfind_dot (name p)) as [i |] eqn:Hi; cycle 1.
  { cbn [String.length] in Heq. rewrite Nat.sub_0_r, str_take_all in Heq.
    apply (f_equal String.length) in Heq. rewrite str_length_app in Heq. cbn in Heq. lia. }
  pose proof (rfind_dot_bound _ _ Hi) as Hb.
  destruct (bool_decide (0 < i)%nat && bool_decide (i < String.length (name p) - 1)%nat).
  - rewrite str_length_drop in Heq.
    replace (String.length (name p) - (String.length (name p) - i))%nat with i in Heq by lia.
    rewrite <- (str_take_drop i (name p)) in Heq at 2.
    apply (inj (String.app _)) in Heq.
    destruct (rfind_dot_drop _ _ Hi) as (rest & Hd & Hr).
    rewrite Hd in Heq. injection Heq as <-. discriminate.
  - cbn [String.length] in Heq. rewrite Nat.sub_0_r, str_take_all in Heq.
    apply (f_equal String.length) in Heq. rewrite str_length_app in Heq. cbn in Heq. lia.
Qed.

Lemma joinpath_inj (dir n1 n2 : string) :
  path_str (joinpath dir n1) = path_str (joinpath dir n2) → n1 = n2.
Proof. unfold path_str, joinpath. cbn. apply (inj (String.app _)). Qed.

Lemma joinpath_ne (dir n1 n2 : string) :
  n1 ≠ n2 → path_str (joinpath dir n1) ≠ path_str (joinpath dir n2).
Proof. intros H E. by apply joinpath_inj in E. Qed.

End PathFacts.

(** ** Reading in chunks *)

Section Chunks.

Lemma chunks_go_concat (n fuel : nat) (l : bytes) :
  (0 < n)%nat → (length l <= fuel)%nat → concat (chunks_go fuel n l) = l.
Proof.
  intros Hn. revert l. induction fuel as [| f IH]; intros l Hl.
  - destruct l; [reflexivity | cbn in Hl; lia].
  - destruct l as [| x l]; [reflexivity |].
    cbn [chunks_go concat]. rewrite IH.
    + apply take_drop.
    + rewrite length_drop. cbn [length] in *. lia.
Qed.

Lemma chunks_concat (n : nat) (l : bytes) : (0 < n)%nat → concat (chunks n l) = l.
Proof. intros Hn. by apply chunks_go_concat. Qed.

Lemma foldl_app_concat (cs : list bytes) (buf : bytes) :
  foldl (λ b chunk, b ++ chunk) buf cs = buf ++ concat cs.
Proof.
  revert buf. induction cs as [| c cs IH]; intros buf; cbn.
  - by rewrite app_nil_r.
  - by rewrite IH, app_assoc.
Qed.

Lemma COPY_BUFSIZE_pos : (0 < COPY_BUFSIZE)%nat.
Proof. unfold COPY_BUFSIZE. lia. Qed.

Lemma CHUNK_SIZE_pos : (0 < Nse.CHUNK_SIZE)%nat.
Proof. unfold Nse.CHUNK_SIZE. lia. Qed.

(** Writing a body chunk by chunk leaves the body in the file. *)
Lemma for_each_write (p : Path) (cs : list bytes) (w : World) :
  for_each cs (write p) w
  = (Ret tt,
     match cs with
     | [] => w
     | _ => set_files (<[path_str p :=
                default [] (files w !! path_str p) ++ concat cs]> (files w)) w
     end).
Proof.
  revert w. induction cs as [| c cs IH]; intros w; [reflexivity |].
  cbn [for_each]. unfold bind at 1. unfold write at 1. rewrite IH.
  destruct cs as [| c' cs]; [cbn [concat]; by rewrite app_nil_r |].
  f_equal. unfold set_files. cbn [files denied net requests console].
  rewrite lookup_insert_eq. cbn [default].
  rewrite insert_insert_eq. cbn [concat]. cbv [id]. by rewrite <- app_assoc.
Qed.

End Chunks.

(** ** The compressor *)

Section Compressor.
Context {C : Codecs}.

(** What [compress_file] does, case by case. *)
Lemma compress_file_cases (a : pathlike) (gz : Path) (w : World) :
  with_suffix (to_path a) ".csv.gz" = Some gz →
  compress_file a w =
  let p := to_path a in
  match files w !! path_str p with
  | None => (Ret PyNone, add_line (InputNotFound (path_str p)) w)
  | Some b =>
      if decide (path_str gz ∈ denied w)
      then (Ret PyNone, add_line (CompressionError (PermissionError (path_str gz))) w)
      else
        let w1 := set_files (<[path_str gz := gzip_compress b]> (files w)) w in
        match a with
        | PStr _ => (Ret PyNone, add_line (CompressionError AttributeError) w1)
        | PPath _ =>
            if decide (path_str p ∈ denied w)
            then (Ret PyNone, add_line (CompressionError (PermissionError (path_str p))) w1)
            else (Ret (PyBool true),
                  add_line (Compressed (name p) (name gz))
                    (set_files (delete (path_str p) (files w1)) w1))
        end
  end.
Proof.
  intros Hgz. pose proof (with_suffix_fresh _ _ Hgz) as Hne.
  unfold compress_file. rewrite Hgz. cbv zeta.
  unfold or_raise, bind at 1, ret at 1.
  unfold try_except, bind at 1. unfold open_rb at 1.
  destruct (files w !! path_str (to_path a)) as [b |] eqn:Hb; [| reflexivity].
  unfold bind at 1. unfold open_wb at 1.
  case_decide as Hd; [reflexivity |].
  unfold bind at 1. unfold copyfileobj_gzip, bind at 1, read_all at 1.
  cbn [files set_files]. rewrite lookup_insert_ne by done. rewrite Hb.
  rewrite foldl_app_concat, chunks_concat by apply COPY_BUFSIZE_pos.
  cbn [app]. unfold store at 1. cbn [files set_files denied net requests console].
  rewrite insert_insert_eq.
  destruct a as [s | p]; cbn [unlink_arg to_path] in *.
  - reflexivity.
  - unfold bind at 1. unfold unlink at 1. cbn [files set_files denied net requests console].
    rewrite lookup_insert_ne by done. rewrite Hb.
    case_decide; reflexivity.
Qed.

End Compressor.

Section CompressorClaims.
Context {C : Codecs}.

(** A path argument with a non-empty name never makes [compress_file]
    raise: every failure inside the [try] is caught and logged. *)
Lemma compress_file_no_raise (a : pathlike) (w : World) :
  name (to_path a) ≠ "" →
  ∃ v w', compress_file a w = (Ret v, w') ∧
          (v = PyBool true ∨ v = PyNone) ∧
          denied w' = denied w ∧ net w' = net w ∧ requests w' = requests w.
Proof.
  intros Hn.
  destruct (with_suffix (to_path a) ".csv.gz") as [gz |] eqn:Hgz; cycle 1.
  { unfold with_suffix in Hgz. by case_decide. }
  rewrite (compress_file_cases a gz w Hgz). cbv zeta.
  destruct (files w !! path_str (to_path a)); [| by eauto 10].
  case_decide; [by eauto 10 |].
  destruct a; [by eauto 10 |].
  case_decide; by eauto 10.
Qed.

(** A [Path] to an existing file whose own path and compressed sibling
    may be written is compressed, and [True] is returned. *)
Lemma compress_file_succeeds (p gz : Path) (b : bytes) (w : World) :
  with_suffix p ".csv.gz" = Some gz →
  files w !! path_str p = Some b →
  path_str gz ∉ denied w → path_str p ∉ denied w →
  compress_file (PPath p) w
  = (Ret (PyBool true),
     add_line (Compressed (name p) (name gz))
       (set_files (delete (path_str p)
                     (<[path_str gz := gzip_compress b]> (files w))) w)).
Proof.
  intros Hgz Hb H1 H2. rewrite (compress_file_cases (PPath p) gz w Hgz).
  cbn [to_path]. cbv zeta. rewrite Hb.
  rewrite decide_False by done. by rewrite decide_False by done.
Qed.

(** C6. After a run of [compress_file] on a file F that returned [True],
    F is gone, the sibling with the compressed suffix exists, and
    decompressing the sibling gives the bytes F held. *)
Theorem compress_file_roundtrip `{!CodecLaws C} (a : pathlike) (w w' : World) :
  compress_file a w = (Ret (PyBool true), w') →
  ∃ (b : bytes) (gz : Path),
    files w !! path_str (to_path a) = Some b ∧
    with_suffix (to_path a) ".csv.gz" = Some gz ∧
    files w' !! path_str (to_path a) = None ∧
    ∃ z, files w' !! path_str gz = Some z ∧ gzip_decompress z = Some b.
Proof.
  intros Hrun.
  destruct (with_suffix (to_path a) ".csv.gz") as [gz |] eqn:Hgz; cycle 1.
  { unfold compress_file in Hrun. rewrite Hgz in Hrun. discriminate. }
  pose proof (with_suffix_fresh _ _ Hgz) as Hne.
  rewrite (compress_file_cases a gz w Hgz) in Hrun. cbv zeta in Hrun.
  destruct (files w !! path_str (to_path a)) as [b |] eqn:Hb; [| discriminate].
  case_decide; [discriminate |].
  destruct a as [s | p]; [discriminate |].
  case_decide; [discriminate |].
  injection Hrun as <-. exists b, gz. split_and!; try done.
  - cbn. apply lookup_delete_eq.
  - exists (gzip_compress b). split; [| apply gzip_roundtrip].
    cbn. rewrite lookup_delete_ne by done. apply lookup_insert_eq.
Qed.

End CompressorClaims.

(** ** Exchange B: cookies, download, extraction *)

Section NseParts.
Context {C : Codecs}.

Lemma cookies_update_twice (s : Session) (c : Cookies) :
  cookies_update (cookies_update s c) c = cookies_update s c.
Proof.
  unfold cookies_update. cbn [cookies headers]. f_equal.
  by rewrite (assoc_L (∪)), (idemp_L (∪)).
Qed.

(** What [get_or_set_cookies] does, case by case. *)
Lemma get_or_set_cookies_cases (session : Session) (cookie_path : Path) (w : World) :
  Nse.get_or_set_cookies session cookie_path w =
  match files w !! path_str cookie_path with
  | Some data =>
      (match pickle_loads data with
       | Some c => Ret (cookies_update session c)
       | None => Raise UnpicklingError
       end, w)
  | None =>
      let w1 := add_request Nse.HOMEPAGE w in
      match net w (cookies session) Nse.HOMEPAGE with
      | None => (Raise (RequestException Nse.HOMEPAGE), w1)
      | Some r =>
          if decide (path_str cookie_path ∈ denied w)
          then (Raise (PermissionError (path_str cookie_path)), w1)
          else (Ret (cookies_update session (resp_cookies r)),
                set_files (<[path_str cookie_path := pickle_dumps (resp_cookies r)]>
                             (files w)) w1)
      end
  end.
Proof.
  unfold Nse.get_or_set_cookies, bind at 1, path_exists.
  destruct (files w !! path_str cookie_path) as [data |] eqn:Hf.
  - rewrite bool_decide_true by eauto.
    unfold bind at 1, read_all. rewrite Hf.
    unfold bind, or_raise. by destruct (pickle_loads data).
  - rewrite bool_decide_false by (intros [? ?]; congruence).
    unfold bind at 1, session_get, bind at 1, http_get.
    destruct (net w (cookies session) Nse.HOMEPAGE) as [r |]; [| reflexivity].
    unfold ret at 1. cbn [fst snd]. unfold bind at 1, open_wb.
    cbn [denied add_request]. case_decide; [reflexivity |].
    unfold bind, write, ret. cbn [files set_files add_request denied net requests console].
    rewrite lookup_insert_eq, insert_insert_eq. cbn [default app].
    by rewrite cookies_update_twice.
Qed.

(** What the downloader of exchange B does, case by case. *)
Lemma nse_download_file_cases (session : Session) (url : string) (dest : Path) (w : World) :
  Nse.download_file session url dest w =
  let w1 := add_request url w in
  match net w (cookies session) url with
  | None => (Raise (RequestException url), w1)
  | Some r =>
      if Str.contains "text/html" (default "" (content_type r))
      then (Raise (RuntimeError url), w1)
      else if decide (path_str dest ∈ denied w)
      then (Raise (PermissionError (path_str dest)), w1)
      else (Ret tt, set_files (<[path_str dest := content r]> (files w)) w1)
  end.
Proof.
  unfold Nse.download_file, bind at 1, session_get, bind at 1, http_get.
  destruct (net w (cookies session) url) as [r |]; [| reflexivity].
  unfold ret at 1. cbn [fst snd].
  destruct (Str.contains _ _); [reflexivity |].
  unfold bind at 1, open_wb. cbn [denied add_request].
  case_decide; [reflexivity |].
  rewrite for_each_write.
  pose proof (chunks_concat Nse.CHUNK_SIZE (content r) CHUNK_SIZE_pos) as Hc.
  destruct (chunks Nse.CHUNK_SIZE (content r)) as [| c cs].
  - cbn in Hc. by rewrite <- Hc.
  - rewrite Hc. cbn [files set_files add_request denied net requests console].
    by rewrite lookup_insert_eq, insert_insert_eq.
Qed.

(** What [extract_file] does, case by case. *)
Lemma extract_file_cases (file : Path) (extract_to : string) (w : World) :
  Nse.extract_file file extract_to w =
  match files w !! path_str file with
  | None => (Raise (FileNotFoundError (path_str file)), w)
  | Some archive =>
      match zip_members archive with
      | None => (Raise BadZipFile, w)
      | Some members =>
          match head (fst <$> members) with
          | None => (Raise IndexError, w)
          | Some n =>
              match Nse.getinfo n members with
              | None => (Raise BadZipFile, w)
              | Some body =>
                  let ex := joinpath extract_to n in
                  if decide (path_str ex ∈ denied w)
                  then (Raise (PermissionError (path_str ex)), w)
                  else
                    let w1 := set_files (<[path_str ex := body]> (files w)) w in
                    if decide (path_str ex = path_str file)
                    then if decide (path_str file ∈ denied w)
                         then (Raise (PermissionError (path_str file)), w1)
                         else (Ret ex, set_files (delete (path_str file) (files w)) w)
                    else if decide (path_str file ∈ denied w)
                         then (Raise (PermissionError (path_str file)), w1)
                         else (Ret ex, set_files (delete (path_str file) (files w1)) w1)
              end
          end
      end
  end.
Proof.
  unfold Nse.extract_file, bind at 1, read_all.
  destruct (files w !! path_str file) as [archive |] eqn:Hf; [| reflexivity].
  unfold bind at 1, or_raise at 1.
  destruct (zip_members archive) as [members |]; [| reflexivity].
  unfold ret at 1, bind at 1, or_raise at 1.
  destruct (head (fst <$> members)) as [n |]; [| reflexivity].
  unfold ret at 1, bind at 1, or_raise at 1.
  destruct (Nse.getinfo n members) as [body |]; [| reflexivity].
  unfold ret at 1. cbv zeta.
  unfold bind at 1, open_wb. case_decide as Hd; [reflexivity |].
  unfold bind at 1, write. cbn [files set_files denied net requests console].
  rewrite lookup_insert_eq, insert_insert_eq. cbn [default app].
  unfold bind, unlink, ret. cbn [files set_files denied net requests console].
  destruct (decide (path_str (joinpath extract_to n) = path_str file)) as [He | He].
  - rewrite He, lookup_insert_eq. case_decide; [reflexivity |].
    by rewrite delete_insert_eq.
  - rewrite lookup_insert_ne by done. rewrite Hf.
    case_decide; reflexivity.
Qed.

End NseParts.

Section Names.

Lemma last_char_app (s t : string) :
  last_char (s +:+ t) =
  match last_char t with Some c => Some c | None => last_char s end.
Proof.
  induction s as [| c s IH].
  - rewrite app_nil_l. by destruct (last_char t).
  - rewrite app_cons. cbn [last_char]. rewrite IH.
    by destruct (last_char t), (last_char s).
Qed.

Lemma rfind_dot_fmt2 (n : Z) : Str.rfind_dot (Str.fmt2 n) = None.
Proof.
  unfold Str.fmt2. cbn [Str.rfind_dot].
  rewrite !decide_False by apply digit_char_not_dot. reflexivity.
Qed.

Lemma rfind_dot_fmt4 (n : Z) : Str.rfind_dot (Str.fmt4 n) = None.
Proof.
  unfold Str.fmt4. cbn [Str.rfind_dot]. rewrite rfind_dot_fmt2.
  rewrite !decide_False by apply digit_char_not_dot. reflexivity.
Qed.

Lemma rfind_dot_month_abbr (m : Z) : Str.rfind_dot (Str.upper (month_abbr m)) = None.
Proof.
  unfold month_abbr.
  repeat match goal with
         | |- context [match ?x with _ => _ end] => destruct x
         end; reflexivity.
Qed.

Lemma rfind_dot_Ymd (d : datetime) : Str.rfind_dot (strftime_Ymd d) = None.
Proof.
  unfold strftime_Ymd.
  repeat apply rfind_dot_app_None; auto using rfind_dot_fmt2, rfind_dot_fmt4.
Qed.

Lemma rfind_dot_dbY (d : datetime) : Str.rfind_dot (Str.upper (strftime_dbY d)) = None.
Proof.
  unfold strftime_dbY. rewrite !upper_app, upper_fmt2, upper_fmt4.
  repeat apply rfind_dot_app_None;
    auto using rfind_dot_fmt2, rfind_dot_fmt4, rfind_dot_month_abbr.
Qed.

Lemma Ymd_nonempty (d : datetime) : strftime_Ymd d ≠ "".
Proof. unfold strftime_Ymd, Str.fmt4. by rewrite !app_cons. Qed.

Lemma dbY_nonempty (d : datetime) : Str.upper (strftime_dbY d) ≠ "".
Proof. unfold strftime_dbY, Str.fmt2. by rewrite !app_cons. Qed.

(** The compressed siblings the two pipelines ask for. *)
Lemma nse_with_suffix (outdir : string) (d : datetime) :
  with_suffix (nse_csv_path outdir d) ".csv.gz" = Some (nse_gz_path outdir d).
Proof. apply with_suffix_csv; [apply Ymd_nonempty | apply rfind_dot_Ymd]. Qed.

Lemma bse_with_suffix (outdir : string) (d : datetime) :
  with_suffix (bse_csv_path outdir d) ".csv.gz" = Some (bse_gz_path outdir d).
Proof. apply with_suffix_csv; [apply dbY_nonempty | apply rfind_dot_dbY]. Qed.

Lemma path_last_char (dir n : string) (c : ascii) :
  last_char n = Some c → last_char (path_str (joinpath dir n)) = Some c.
Proof. intros H. unfold path_str, joinpath. cbn. by rewrite last_char_app, H. Qed.

Lemma cookie_path_last : last_char (path_str nse_cookie_path) = Some "l"%char.
Proof. reflexivity. Qed.

Lemma nse_gz_last (outdir : string) (d : datetime) :
  last_char (path_str (nse_gz_path outdir d)) = Some "z"%char.
Proof. apply path_last_char. by rewrite last_char_app. Qed.

Lemma nse_csv_last (outdir : string) (d : datetime) :
  last_char (path_str (nse_csv_path outdir d)) = Some "v"%char.
Proof. apply path_last_char. by rewrite last_char_app. Qed.

Lemma nse_zip_last (outdir : string) (d : datetime) :
  last_char (path_str (nse_zip_path outdir d)) = Some "p"%char.
Proof. apply path_last_char. unfold Nse.zip_filename. by rewrite !last_char_app. Qed.

Lemma last_char_ne (s t : string) (a b : ascii) :
  last_char s = Some a → last_char t = Some b → a ≠ b → s ≠ t.
Proof. intros Hs Ht Hab ->. congruence. Qed.

End Names.

Create HintDb names.
#[local] Hint Resolve cookie_path_last nse_gz_last nse_csv_last nse_zip_last : names.

Ltac paths_differ :=
  solve [ eapply last_char_ne; [eauto with names | eauto with names | discriminate]
        | apply joinpath_ne; discriminate ].

(** ** Claims on the parts of exchange B *)

Section NseClaims.
Context {C : Codecs}.

(** C5. With the file present, the cookies are read from it and no
    request is made; without it, exactly one GET goes to the homepage,
    and when that answers and the file may be written, the cookies of the
    answer are stored in the file and loaded into the session. *)
Theorem get_or_set_cookies_spec (session : Session) (cookie_path : Path) (w : World) :
  (∀ data, files w !! path_str cookie_path = Some data →
     ∃ res, Nse.get_or_set_cookies session cookie_path w = (res, w) ∧
            (∀ c, pickle_loads data = Some c →
                  res = Ret (cookies_update session c)))
  ∧
  (files w !! path_str cookie_path = None →
     ∃ res w', Nse.get_or_set_cookies session cookie_path w = (res, w') ∧
       requests w' = requests w ++ [Nse.HOMEPAGE] ∧
       (∀ r, net w (cookies session) Nse.HOMEPAGE = Some r →
             path_str cookie_path ∉ denied w →
             res = Ret (cookies_update session (resp_cookies r)) ∧
             files w' = <[path_str cookie_path := pickle_dumps (resp_cookies r)]> (files w))).
Proof.
  split.
  - intros data Hf. rewrite get_or_set_cookies_cases, Hf.
    eexists. split; [reflexivity |]. by intros c ->.
  - intros Hf. rewrite get_or_set_cookies_cases, Hf. cbv zeta.
    destruct (net w (cookies session) Nse.HOMEPAGE) as [r |].
    + case_decide.
      * do 2 eexists. split_and!; [reflexivity | reflexivity |]. by intros.
      * do 2 eexists. split_and!; [reflexivity | reflexivity |].
        by intros ? [= <-] _.
    + do 2 eexists. split_and!; [reflexivity | reflexivity |]. by intros.
Qed.

(** A second call finds the file the first call wrote and makes no
    request of its own. *)
Lemma get_or_set_cookies_reuse `{!CodecLaws C} (s1 s2 : Session) (cookie_path : Path)
    (w w1 : World) (s1' : Session) :
  files w !! path_str cookie_path = None →
  Nse.get_or_set_cookies s1 cookie_path w = (Ret s1', w1) →
  ∃ r, net w (cookies s1) Nse.HOMEPAGE = Some r ∧
       Nse.get_or_set_cookies s2 cookie_path w1
       = (Ret (cookies_update s2 (resp_cookies r)), w1).
Proof.
  intros Hf. rewrite get_or_set_cookies_cases, Hf. cbv zeta.
  destruct (net w (cookies s1) Nse.HOMEPAGE) as [r |]; [| discriminate].
  case_decide; [discriminate |]. intros [= <- <-].
  exists r. split; [reflexivity |].
  rewrite get_or_set_cookies_cases. cbn [files set_files add_request].
  by rewrite lookup_insert_eq, pickle_roundtrip.
Qed.

Lemma bind_download_html {B} (s : Session) (url : string) (dest : Path)
    (k : unit → M B) (w : World) (r : Response) :
  net w (cookies s) url = Some r → is_html r →
  bind (Nse.download_file s url dest) k w = (Raise (RuntimeError url), add_request url w).
Proof.
  intros Hnet Hhtml. unfold bind. rewrite nse_download_file_cases, Hnet. cbv zeta.
  unfold is_html in Hhtml. by rewrite Hhtml.
Qed.

(** C3. A response whose [Content-Type] contains [text/html] makes the
    downloader of exchange B raise [RuntimeError] with the files as they
    were; a per-date run that is served such a response ends in an
    exception and leaves the path of the compressed output, and the paths
    of the archive and of the CSV, as they were. *)
Theorem html_response_rejected :
  (∀ (session : Session) (url : string) (dest : Path) (w : World) (r : Response),
     net w (cookies session) url = Some r → is_html r →
     ∃ w', Nse.download_file session url dest w = (Raise (RuntimeError url), w') ∧
           files w' = files w)
  ∧
  (∀ (date_str outdir : string) (d : datetime) (w : World),
     strptime (Str.upper date_str) = Some d →
     (∀ jar, ∃ r, net w jar (nse_zip_url d) = Some r ∧ is_html r) →
     ∃ e w', Nse.download_nse_equity_bhavcopy date_str outdir w = (Raise e, w') ∧
       files w' !! path_str (nse_gz_path outdir d)
         = files w !! path_str (nse_gz_path outdir d) ∧
       files w' !! path_str (nse_zip_path outdir d)
         = files w !! path_str (nse_zip_path outdir d) ∧
       files w' !! path_str (nse_csv_path outdir d)
         = files w !! path_str (nse_csv_path outdir d)).
Proof.
  split.
  - intros session url dest w r Hnet Hhtml.
    rewrite nse_download_file_cases, Hnet. cbv zeta.
    unfold is_html in Hhtml. rewrite Hhtml. by eexists.
  - intros date_str outdir d w Hd Hhtml.
    unfold Nse.download_nse_equity_bhavcopy.
    rewrite Hd. unfold or_raise at 1, bind at 1, ret at 1.
    unfold bind at 1, mkdir_p.
    case_decide; [by eauto 10 |]. case_decide; [by eauto 10 |].
    unfold bind at 1. rewrite get_or_set_cookies_cases.
    fold nse_cookie_path. fold (nse_zip_url d). fold (nse_zip_path outdir d).
    destruct (files w !! path_str nse_cookie_path) as [data |].
    { destruct (pickle_loads data) as [c |]; [| by eauto 10].
      destruct (Hhtml (cookies (cookies_update (mksession ∅ HEADERS) c)))
        as (r & Hr & Hh).
      erewrite bind_download_html by eauto. by eauto 10. }
    cbv zeta.
    destruct (net w _ Nse.HOMEPAGE) as [r0 |]; [| by eauto 10].
    case_decide; [by eauto 10 |].
    destruct (Hhtml (cookies (cookies_update (mksession ∅ HEADERS) (resp_cookies r0))))
      as (r & Hr & Hh).
    erewrite bind_download_html by (cbn; eauto).
    do 2 eexists. split; [reflexivity |].
    cbn [files set_files add_request].
    rewrite !lookup_insert_ne by paths_differ. done.
Qed.

End NseClaims.

(** ** The range driver *)

Section MonadFacts.

Lemma bind_assoc {A B D} (m : M A) (f : A → M B) (g : B → M D) (w : World) :
  bind (bind m f) g w = bind m (λ x, bind (f x) g) w.
Proof. unfold bind. by destruct (m w) as [[a | e |] w']. Qed.

Lemma bind_ret_r {A} (m : M A) (w : World) : bind m ret w = m w.
Proof. unfold bind, ret. by destruct (m w) as [[a | e |] w']. Qed.

Lemma bind_ext {A B} (m : M A) (f g : A → M B) (w : World) :
  (∀ a w', f a w' = g a w') → bind m f w = bind m g w.
Proof. intros H. unfold bind. destruct (m w) as [[a | e |] w']; auto. Qed.

Lemma terminates_ret {A} (a : A) : terminates (ret a).
Proof. by intros w. Qed.

Lemma terminates_raise {A} (e : exn) : terminates (@raise A e).
Proof. by intros w. Qed.

Lemma terminates_bind {A B} (m : M A) (k : A → M B) :
  terminates m → (∀ a, terminates (k a)) → terminates (bind m k).
Proof.
  intros Hm Hk w. unfold bind. specialize (Hm w).
  destruct (m w) as [[a | e |] w']; cbn in *; [apply Hk | done | done].
Qed.

Lemma terminates_try {A} (m : M A) (h : exn → M A) :
  terminates m → (∀ e, terminates (h e)) → terminates (try_except m h).
Proof.
  intros Hm Hh w. unfold try_except. specialize (Hm w).
  destruct (m w) as [[a | e |] w']; cbn in *; [done | apply Hh | done].
Qed.

Lemma terminates_print (l : line) : terminates (print l).
Proof. by intros w. Qed.

End MonadFacts.

Section RangeDriver.
Context {C : Codecs}.
Variable per_date : string → string → M Path.
Variable output_dir : string.

Lemma strptime_valid (s : string) (d : datetime) :
  strptime s = Some d → valid_b d = true.
Proof.
  assert (Hrest : ∀ dd t, parse_rest dd t = Some d → valid_b d = true).
  { intros dd t. unfold parse_rest.
    destruct t as [| a [| b [| c t]]]; try discriminate.
    destruct (parse_month a b c) as [m |]; [| discriminate]. cbn [mbind option_bind].
    destruct (parse_year t) as [y |]; [| discriminate]. cbn [mbind option_bind].
    destruct (valid_b (mkdate y m dd)) eqn:E; [| discriminate]. by intros [= <-]. }
  assert (Hone : ∀ t, day_one_digit t = Some d → valid_b d = true).
  { intros t. unfold day_one_digit. destruct t as [| a t]; [discriminate |].
    destruct (Str.digit_val a) as [x |]; [| discriminate]. cbn [mbind option_bind].
    destruct (1 <=? x); [apply Hrest | discriminate]. }
  unfold strptime.
  destruct (day_two_digits s) as [d2 |] eqn:E2.
  { intros [= ->]. unfold day_two_digits in E2.
    destruct s as [| a [| b t]]; try discriminate.
    destruct (Str.digit_val a) as [x |]; [| discriminate]. cbn [mbind option_bind] in E2.
    destruct (Str.digit_val b) as [y |]; [| discriminate]. cbn [mbind option_bind] in E2.
    cbv zeta in E2.
    match type of E2 with (if ?c then _ else _) = _ => destruct c end;
      [by eapply Hrest | discriminate]. }
  destruct (day_one_digit s) as [d1 |] eqn:E1.
  { intros [= ->]. by eapply Hone. }
  unfold day_space_digit. destruct s as [| a t]; [discriminate |].
  destruct (decide (a = " "%char)) as [-> | Hne]; [apply Hone |].
  destruct a as [[] [] [] [] [] [] [] []]; try discriminate; try apply Hone.
Qed.

(** C8. On a Saturday or a Sunday one turn of the loop prints the skip
    line and nothing else happens: the list of results, the files and
    the requests are as they were, whatever the per-date function is. *)
Theorem range_body_weekend (current : datetime) (downloaded_files : list Path) (w : World) :
  weekday current = 5 ∨ weekday current = 6 →
  range_body per_date output_dir current downloaded_files w
  = (Ret downloaded_files, add_line (SkippingWeekend (strftime_A_d_b_Y current)) w).
Proof.
  intros H. unfold range_body.
  destruct (Z.ltb_spec (weekday current) 5); [lia | reflexivity].
Qed.

(** On a weekday one turn of the loop calls the per-date function, and
    appends its path when it returns, or logs its exception. *)
Lemma range_body_weekday (current : datetime) (downloaded_files : list Path) (w : World) :
  is_weekday current = true →
  range_body per_date output_dir current downloaded_files w
  = let date_str := Str.upper (strftime_dbY current) in
    match per_date date_str output_dir w with
    | (Ret p, w') => (Ret (downloaded_files ++ [p]), w')
    | (Raise e, w') => (Ret downloaded_files, add_line (FailedDate date_str e) w')
    | (OutOfFuel, w') => (OutOfFuel, w')
    end.
Proof.
  unfold is_weekday, range_body. intros ->. cbv zeta.
  unfold try_except, bind.
  by destruct (per_date _ output_dir w) as [[p | e |] w'].
Qed.



Lemma range_loop_unroll (n : nat) :
  ∀ (fuel : nat) (start end_ : datetime) (acc : list Path) (w : World),
    valid_b start = true → valid_b end_ = true →
    Z.to_nat (toordinal end_ - toordinal start + 1) = n → (n < fuel)%nat →
    range_loop per_date output_dir fuel start end_ acc w
    = bind (run_dates per_date output_dir (days_from n start) acc) (loop_exit n end_) w.
Proof.
  induction n as [| k IH]; intros fuel start end_ acc w Hs He Hn Hfuel.
  - destruct fuel as [| f]; [lia |]. cbn [range_loop days_from run_dates].
    assert (Hleb : leb start end_ = false).
    { apply not_true_is_false. rewrite leb_toordinal by done. lia. }
    rewrite Hleb. unfold bind, ret, loop_exit. by rewrite decide_True by auto.
  - destruct fuel as [| f]; [lia |]. cbn [range_loop days_from run_dates].
    assert (Hleb : leb start end_ = true) by (rewrite leb_toordinal by done; lia).
    rewrite Hleb, bind_assoc. apply bind_ext. intros acc' w'.
    rewrite add_one_day_spec.
    pose proof (toordinal_range end_ He) as Hre.
    case_decide as Hlt.
    + unfold or_raise, bind at 1, ret at 1.
      rewrite (IH f (next_day start) end_ acc' w').
      * apply bind_ext. intros a w''. unfold loop_exit.
        destruct (decide (k = O ∨ _)), (decide (S k = O ∨ _)); try reflexivity; lia.
      * by apply next_day_valid.
      * done.
      * rewrite toordinal_next_day by done. lia.
      * lia.
    + assert (k = O) by lia. subst k.
      unfold or_raise, bind at 1, raise at 1. cbn [days_from run_dates].
      unfold bind, ret, loop_exit. rewrite decide_False by lia. reflexivity.
Qed.

End RangeDriver.

Section Dates.



(** The [i]-th day of the list is [i] days after the first. *)
Lemma days_from_lookup (n : nat) :
  ∀ (s : datetime) (i : nat) (d : datetime),
    valid_b s = true → toordinal s + Z.of_nat n - 1 <= MAXORDINAL →
    days_from n s !! i = Some d →
    valid_b d = true ∧ toordinal d = toordinal s + Z.of_nat i.
Proof.
  induction n as [| k IH]; intros s i d Hs Hmax; [done |].
  destruct i as [| i]; cbn [days_from].
  - intros [= <-]. split; [done | lia].
  - cbn. intros Hl. destruct k as [| k]; [done |].
    apply IH in Hl.
    + rewrite toordinal_next_day in Hl by done. split; [apply Hl | lia].
    + apply next_day_valid; [done | lia].
    + rewrite toordinal_next_day by done. lia.
Qed.

Lemma days_from_length (n : nat) (s : datetime) : length (days_from n s) = n.
Proof. revert s. induction n as [| k IH]; intros s; cbn; [done | by rewrite IH]. Qed.


Lemma dates_in_range_bound (s e : datetime) :
  valid_b s = true → valid_b e = true →
  toordinal s + Z.of_nat (Z.to_nat (toordinal e - toordinal s + 1)) - 1 <= MAXORDINAL.
Proof.
  intros Hs He. pose proof (toordinal_range s Hs). pose proof (toordinal_range e He). lia.
Qed.


Lemma dates_in_range_lookup (s e : datetime) (i : nat) (d : datetime) :
  valid_b s = true → valid_b e = true →
  dates_in_range s e !! i = Some d →
  valid_b d = true ∧ toordinal d = toordinal s + Z.of_nat i.
Proof.
  intros Hs He. apply days_from_lookup; auto using dates_in_range_bound.
Qed.


End Dates.

Section RangeClaims.
Context {C : Codecs}.
Variable per_date : string → string → M Path.
Variable output_dir : string.

(** The loop with the bound the driver gives it. *)
Lemma range_loop_dates (fuel : nat) (s e : datetime) (acc : list Path) (w : World) :
  valid_b s = true → valid_b e = true → (range_fuel s e <= fuel)%nat →
  range_loop per_date output_dir fuel s e acc w
  = bind (run_dates per_date output_dir (dates_in_range s e) acc)
      (loop_exit (length (dates_in_range s e)) e) w.
Proof.
  intros Hs He Hf. unfold dates_in_range. rewrite days_from_length.
  apply range_loop_unroll; [done | done | done |]. unfold range_fuel in Hf. lia.
Qed.


Lemma run_dates_all_succeed (Inv : World → Prop) (ds : list datetime) :
  ∀ (acc : list Path) (w : World),
    (∀ d, d ∈ ds → is_weekday d = true) →
    (∀ d w0, d ∈ ds → Inv w0 →
       ∃ p w1, per_date (Str.upper (strftime_dbY d)) output_dir w0 = (Ret p, w1) ∧ Inv w1) →
    Inv w →
    ∃ l w', run_dates per_date output_dir ds acc w = (Ret (acc ++ l), w') ∧
            length l = length ds ∧ Inv w'.
Proof.
  induction ds as [| d ds IH]; intros acc w Hwd Hok HI.
  - exists [], w. cbn. by rewrite app_nil_r.
  - cbn [run_dates]. unfold bind at 1.
    rewrite range_body_weekday by (apply Hwd; left). cbv zeta.
    destruct (Hok d w ltac:(left) HI) as (p & w1 & -> & HI1).
    destruct (IH (acc ++ [p]) w1) as (l & w' & -> & Hlen & HI').
    + intros ??. apply Hwd. by right.
    + intros ????. apply Hok; [by right | done].
    + done.
    + exists (p :: l), w'. rewrite <- app_assoc. cbn. by rewrite Hlen.
Qed.

Lemma filter_all_weekdays (ds : list datetime) :
  (∀ d, d ∈ ds → is_weekday d = true) →
  filter (λ d, is_weekday d = true) ds = ds.
Proof.
  induction ds as [| d ds IH]; intros H; [done |].
  rewrite filter_cons_True by (apply H; left). f_equal. apply IH.
  intros ??. apply H. by right.
Qed.

(** C7. When every day of the range is a weekday and every call of the
    per-date function returns, the list the driver returns has as many
    entries as the range has weekdays; and the driver does return a list
    unless the range ends on 31 Dec 9999. *)
Theorem range_driver_all_succeed (Inv : World → Prop) (start_date end_date : string)
    (s e : datetime) (w : World) :
  strptime (Str.upper start_date) = Some s →
  strptime (Str.upper end_date) = Some e →
  (∀ d, d ∈ dates_in_range s e → is_weekday d = true) →
  (∀ d w0, d ∈ dates_in_range s e → Inv w0 →
     ∃ p w1, per_date (Str.upper (strftime_dbY d)) output_dir w0 = (Ret p, w1) ∧ Inv w1) →
  Inv w →
  (∀ l w', range_driver per_date start_date end_date output_dir w = (Ret l, w') →
     length l = weekdays_in_range s e)
  ∧ (toordinal e < MAXORDINAL →
     ∃ l w', range_driver per_date start_date end_date output_dir w = (Ret l, w')).
Proof.
  intros Hs He Hwd Hok HI.
  pose proof (strptime_valid _ _ Hs) as Vs. pose proof (strptime_valid _ _ He) as Ve.
  destruct (run_dates_all_succeed Inv (dates_in_range s e) [] w Hwd Hok HI)
    as (l0 & w0 & Hrun & Hlen & _).
  assert (Hdrv : range_driver per_date start_date end_date output_dir w
                 = bind (loop_exit (length (dates_in_range s e)) e l0)
                     (λ l, bind (print (Completed (length l))) (λ _, ret l)) w0).
  { unfold range_driver. rewrite Hs, He.
    unfold or_raise, bind at 1, ret at 1, bind at 1, ret at 1, bind at 1.
    rewrite range_loop_dates by done. unfold bind. rewrite Hrun.
    reflexivity. }
  rewrite Hdrv. unfold weekdays_in_range. rewrite filter_all_weekdays by done.
  unfold loop_exit. split.
  - intros l w'. case_decide; [| discriminate].
    unfold bind, ret, print. intros [= <- <-]. done.
  - intros Hlt. rewrite decide_True by auto. by eauto.
Qed.

End RangeClaims.

(** ** The per-date pipeline of exchange B *)

Section NsePipeline.
Context {C : Codecs}.

Lemma rename_cases (src dst : Path) (w : World) :
  rename src dst w =
  match files w !! path_str src with
  | None => (Raise (FileNotFoundError (path_str src)), w)
  | Some b =>
      if decide (path_str src ∈ denied w)
      then (Raise (PermissionError (path_str src)), w)
      else if decide (path_str dst ∈ denied w)
      then (Raise (PermissionError (path_str dst)), w)
      else (Ret tt, set_files (<[path_str dst := b]> (delete (path_str src) (files w))) w)
  end.
Proof. reflexivity. Qed.

Lemma nse_steps_success (session : Session) (outdir : string) (d : datetime)
    (w w' : World) (p : Path) :
  nse_steps session outdir d w = (Ret p, w') →
  path_str (nse_gz_path outdir d) ∉ denied w →
  p = nse_csv_path outdir d ∧
  nse_intermediates_gone outdir d w' ∧
  ∃ r members n body,
    net w (cookies session) (nse_zip_url d) = Some r ∧
    zip_members (content r) = Some members ∧
    head (fst <$> members) = Some n ∧
    Nse.getinfo n members = Some body ∧
    files w' !! path_str (nse_gz_path outdir d) = Some (gzip_compress body) ∧
    (path_str (joinpath outdir n) = path_str (nse_gz_path outdir d) ∨
     files w' !! path_str (joinpath outdir n) = None).
Proof.
  unfold nse_steps. intros Hrun Hgz.
  set (zip := nse_zip_path outdir d) in *.
  set (csv := nse_csv_path outdir d) in *.
  set (gz := nse_gz_path outdir d) in *.
  assert (Hzc : path_str zip ≠ path_str csv) by (apply joinpath_ne; discriminate).
  assert (Hzg : path_str zip ≠ path_str gz) by (apply joinpath_ne; discriminate).
  assert (Hcg : path_str gz ≠ path_str csv).
  { apply joinpath_ne. intros E. apply (inj (String.app _)) in E. discriminate. }
  unfold bind at 1 in Hrun. rewrite nse_download_file_cases in Hrun. cbv zeta in Hrun.
  destruct (net w (cookies session) (nse_zip_url d)) as [r |] eqn:Hnet; [| discriminate].
  destruct (Str.contains _ _); [discriminate |].
  case_decide; [discriminate |].
  unfold bind at 1 in Hrun. rewrite extract_file_cases in Hrun.
  cbn [files set_files add_request denied] in Hrun.
  rewrite lookup_insert_eq in Hrun.
  destruct (zip_members (content r)) as [members |] eqn:Hmem; [| discriminate].
  destruct (head (fst <$> members)) as [n |] eqn:Hn; [| discriminate].
  destruct (Nse.getinfo n members) as [body |] eqn:Hbody; [| discriminate].
  cbv zeta in Hrun.
  set (ex := joinpath outdir n) in *.
  case_decide; [discriminate |].
  destruct (decide (path_str ex = path_str zip)) as [Hez | Hez].
  { (* the member would replace the archive: the renaming then fails *)
    case_decide; [discriminate |].
    unfold bind at 1 in Hrun. rewrite rename_cases in Hrun.
    cbn [files set_files] in Hrun. rewrite Hez in Hrun.
    rewrite delete_insert_eq, lookup_delete_eq in Hrun. discriminate. }
  case_decide; [discriminate |].
  unfold bind at 1 in Hrun. rewrite rename_cases in Hrun.
  cbn [files set_files denied] in Hrun.
  rewrite lookup_delete_ne, lookup_insert_eq in Hrun by done.
  case_decide; [discriminate |]. case_decide as Hcd; [discriminate |].
  unfold bind at 1 in Hrun.
  erewrite (compress_file_succeeds csv gz body) in Hrun; cycle 1.
  { apply nse_with_suffix. }
  { cbn [files set_files]. apply lookup_insert_eq. }
  { done. }
  { done. }
  unfold bind, print, ret in Hrun. injection Hrun as <- <-.
  split; [done |]. split.
  - split; cbn [files set_files add_line]; [| apply lookup_delete_eq].
    rewrite lookup_delete_ne, lookup_insert_ne, lookup_insert_ne by done.
    destruct (decide (path_str ex = path_str zip)); [done |].
    rewrite lookup_delete_ne by done.
    rewrite lookup_delete_eq. done.
  - exists r, members, n, body. split_and!; try done.
    + cbn [files set_files add_line].
      rewrite lookup_delete_ne by done. apply lookup_insert_eq.
    + destruct (decide (path_str ex = path_str gz)) as [| Heg]; [by left | right].
      cbn [files set_files add_line].
      fold ex.
      destruct (decide (path_str ex = path_str csv)) as [-> | Hec];
        [apply lookup_delete_eq |].
      rewrite lookup_delete_ne, lookup_insert_ne, lookup_insert_ne by done.
      apply lookup_delete_eq.
Qed.

(** C9, as amended. A per-date run of exchange B that returns, with the
    compressed path writable, leaves neither the archive nor the
    uncompressed CSV; the compressed file holds the first member of the
    archive the origin served, and the file extracted for that member is
    gone unless its name is the name of the compressed file. *)
Theorem nse_run_leaves_only_gz (date_str outdir : string) (d : datetime)
    (w w' : World) (p : Path) :
  strptime (Str.upper date_str) = Some d →
  Nse.download_nse_equity_bhavcopy date_str outdir w = (Ret p, w') →
  path_str (nse_gz_path outdir d) ∉ denied w →
  p = nse_csv_path outdir d ∧
  nse_intermediates_gone outdir d w' ∧
  ∃ jar r members n body,
    net w jar (nse_zip_url d) = Some r ∧
    zip_members (content r) = Some members ∧
    head (fst <$> members) = Some n ∧
    Nse.getinfo n members = Some body ∧
    files w' !! path_str (nse_gz_path outdir d) = Some (gzip_compress body) ∧
    (path_str (joinpath outdir n) = path_str (nse_gz_path outdir d) ∨
     files w' !! path_str (joinpath outdir n) = None).
Proof.
  intros Hd Hrun Hgz.
  unfold Nse.download_nse_equity_bhavcopy in Hrun.
  rewrite Hd in Hrun. unfold or_raise at 1, bind at 1, ret at 1 in Hrun.
  unfold bind at 1, mkdir_p in Hrun.
  case_decide; [discriminate |]. case_decide; [discriminate |].
  unfold bind at 1 in Hrun. rewrite get_or_set_cookies_cases in Hrun.
  fold nse_cookie_path in Hrun.
  destruct (files w !! path_str nse_cookie_path) as [data |].
  - destruct (pickle_loads data) as [c |]; [| discriminate].
    apply (nse_steps_success _ outdir d w w' p) in Hrun; [| done].
    destruct Hrun as (? & ? & r & members & n & body & ?).
    split_and!; try done. by eexists _, r, members, n, body.
  - cbv zeta in Hrun.
    destruct (net w _ Nse.HOMEPAGE) as [r0 |]; [| discriminate].
    case_decide; [discriminate |].
    apply (nse_steps_success _ outdir d _ w' p) in Hrun; [| done].
    destruct Hrun as (? & ? & r & members & n & body & ?).
    split_and!; try done. by eexists _, r, members, n, body.
Qed.

End NsePipeline.

(** ** The per-date pipeline of exchange A *)

Section BsePipeline.
Context {C : Codecs}.

(** What the downloader of exchange A does, case by case: it returns in
    every case. *)
Lemma bse_download_file_cases (url : string) (dest : Path) (w : World) :
  Bse.download_file url dest w =
  let w1 := add_request url w in
  match net w ∅ url with
  | None => (Ret None, add_line (FailedUrl url (RequestException url)) w1)
  | Some r =>
      if status_code r =? 200 then
        if decide (path_str dest ∈ denied w)
        then (Ret None, add_line (FailedUrl url (PermissionError (path_str dest))) w1)
        else (Ret (Some dest),
              add_line (Downloaded (path_str dest))
                (set_files (<[path_str dest := content r]> (files w)) w1))
      else (Ret None, add_line (FailedUrl url (HTTPError (status_code r))) w1)
  end.
Proof.
  unfold Bse.download_file, try_except, bind at 1, http_get.
  destruct (net w ∅ url) as [r |]; [| reflexivity].
  destruct (status_code r =? 200); [| reflexivity].
  unfold bind at 1, open_wb. cbn [denied add_request].
  case_decide; [reflexivity |].
  unfold bind, write, print, ret. cbn [files set_files add_request denied net requests console].
  by rewrite lookup_insert_eq, insert_insert_eq.
Qed.

Lemma joinpath_ne_dir (dir n : string) :
  (2 <= String.length n)%nat → path_str (joinpath dir n) ≠ dir.
Proof.
  intros Hn E. apply (f_equal String.length) in E.
  unfold path_str, joinpath, dir_prefix in E. cbn [parent name] in E.
  rewrite str_length_app in E.
  case_decide as Hd.
  - destruct Hd as [-> | ->]; cbn in E; lia.
  - destruct (ends_with_sep dir); [lia |].
    rewrite str_length_app in E. cbn in E. lia.
Qed.

Lemma dbY_length (d : datetime) : String.length (strftime_dbY d) = 9%nat.
Proof.
  unfold strftime_dbY. rewrite !str_length_app.
  assert (String.length (month_abbr (month d)) = 3%nat).
  { unfold month_abbr.
    repeat match goal with
           | |- context [match ?x with _ => _ end] => destruct x
           end; reflexivity. }
  cbn [String.length Str.fmt2 Str.fmt4]. lia.
Qed.

Lemma upper_length (s : string) : String.length (Str.upper s) = String.length s.
Proof. induction s as [| c s IH]; [done |]. cbn. by rewrite IH. Qed.

(** The raw download keeps the case of the month; the compressor is
    given the upper-case name. *)
Lemma dbY_not_upper (d : datetime) : strftime_dbY d ≠ Str.upper (strftime_dbY d).
Proof.
  unfold strftime_dbY. rewrite !upper_app, upper_fmt2, upper_fmt4. intros E.
  apply (inj (String.app _)) in E.
  unfold month_abbr in E.
  repeat match type of E with
         | context [match ?x with _ => _ end] => destruct x
         end; discriminate E.
Qed.

Lemma bse_raw_ne_csv (outdir : string) (d : datetime) :
  path_str (bse_raw_path outdir d) ≠ path_str (bse_csv_path outdir d).
Proof.
  apply joinpath_ne. intros E.
  assert (Hl : String.length (strftime_dbY d) = String.length (Str.upper (strftime_dbY d)))
    by (by rewrite upper_length).
  apply (f_equal (Str.take (String.length (strftime_dbY d)))) in E.
  rewrite str_take_app_length, Hl, str_take_app_length in E.
  by apply dbY_not_upper in E.
Qed.

Lemma bse_raw_ne_gz (outdir : string) (d : datetime) :
  path_str (bse_raw_path outdir d) ≠ path_str (bse_gz_path outdir d).
Proof.
  apply joinpath_ne. intros E. apply (f_equal String.length) in E.
  rewrite !str_length_app, upper_length in E. cbn in E. lia.
Qed.

(** What the per-date function of exchange A does once the date text is
    parsed and the directory is usable: whatever the download did, the
    compressor is run on the upper-case name and that path is returned. *)
Lemma bse_per_date_cases (date_str outdir : string) (d : datetime) (w : World) :
  strptime (Str.upper date_str) = Some d →
  dir_usable outdir w →
  Bse.download_bse_equity_bhavcopy date_str outdir w =
  let w1 := snd (Bse.download_file (Bse.bhavcopy_url d) (bse_raw_path outdir d) w) in
  let w2 := snd (compress_file (PPath (bse_csv_path outdir d)) w1) in
  (Ret (bse_csv_path outdir d),
   add_line (ExtractedSaved (path_str (bse_csv_path outdir d))) w2).
Proof.
  intros Hd [Hf Hden]. unfold Bse.download_bse_equity_bhavcopy.
  rewrite Hd. unfold or_raise at 1, bind at 1, ret at 1.
  unfold bind at 1, mkdir_p.
  rewrite decide_False by (rewrite Hf; by intros [? ?]).
  rewrite decide_False by done. cbv zeta.
  fold (bse_raw_path outdir d). fold (bse_csv_path outdir d).
  unfold bind at 1.
  pose proof (bse_download_file_cases (Bse.bhavcopy_url d) (bse_raw_path outdir d) w) as Hdl.
  destruct (Bse.download_file (Bse.bhavcopy_url d) (bse_raw_path outdir d) w)
    as [[o | e |] w1] eqn:E.
  2,3: cbv zeta in Hdl;
       repeat (match type of Hdl with
               | context [match ?x with _ => _ end] => destruct x
               | context [if ?x then _ else _] => destruct x
               end); discriminate Hdl.
  cbn [snd]. unfold bind at 1.
  destruct (compress_file_no_raise (PPath (bse_csv_path outdir d)) w1)
    as (v & w2 & Hc & _).
  { cbn. intros E'. pose proof (dbY_nonempty d) as Hne.
    destruct (Str.upper (strftime_dbY d)); [done | by rewrite app_cons in E']. }
  rewrite Hc. reflexivity.
Qed.

(** A directory that was usable stays usable through a per-date run of
    exchange A, and the run returns. *)
Lemma bse_per_date_returns (outdir : string) (d : datetime) (w : World) :
  valid_b d = true → dir_usable outdir w →
  ∃ p w', Bse.download_bse_equity_bhavcopy (Str.upper (strftime_dbY d)) outdir w
          = (Ret p, w') ∧ dir_usable outdir w'.
Proof.
  intros Hv Hu. pose proof Hu as [Hf Hden].
  rewrite (bse_per_date_cases _ outdir d w) by auto using strptime_strftime.
  cbv zeta. do 2 eexists. split; [reflexivity |].
  assert (Hro : path_str (bse_raw_path outdir d) ≠ outdir).
  { apply joinpath_ne_dir. rewrite str_length_app, dbY_length. lia. }
  assert (Hgo : path_str (bse_gz_path outdir d) ≠ outdir).
  { apply joinpath_ne_dir. rewrite str_length_app, upper_length, dbY_length. lia. }
  set (w1 := snd (Bse.download_file _ _ w)).
  assert (Hw1 : files w1 !! outdir = None ∧ denied w1 = denied w).
  { subst w1. rewrite bse_download_file_cases. cbv zeta.
    destruct (net w ∅ (Bse.bhavcopy_url d)) as [r |];
      [destruct (status_code r =? 200); [case_decide |] |];
      cbn [snd files denied add_line set_files add_request];
      rewrite ?lookup_insert_ne by done; done. }
  destruct Hw1 as [Hf1 Hd1].
  rewrite (compress_file_cases (PPath (bse_csv_path outdir d)) _ w1
             (bse_with_suffix outdir d)).
  cbv zeta. cbn [to_path].
  unfold dir_usable.
  destruct (files w1 !! path_str (bse_csv_path outdir d));
    [case_decide; [| case_decide] |];
    cbn [snd files denied add_line set_files];
    rewrite ?Hd1; (split; [| done]);
    rewrite ?lookup_delete_None, ?lookup_insert_ne by done; auto.
Qed.

(** With the download successful and no file under the upper-case name,
    the raw download stays uncompressed and the compressed path is not
    written. *)
Lemma bse_download_left_uncompressed (outdir : string) (d : datetime) (w : World)
    (r : Response) :
  valid_b d = true → dir_usable outdir w →
  net w ∅ (Bse.bhavcopy_url d) = Some r → status_code r = 200 →
  path_str (bse_raw_path outdir d) ∉ denied w →
  files w !! path_str (bse_csv_path outdir d) = None →
  ∃ w', Bse.download_bse_equity_bhavcopy (Str.upper (strftime_dbY d)) outdir w
        = (Ret (bse_csv_path outdir d), w') ∧
        files w' !! path_str (bse_raw_path outdir d) = Some (content r) ∧
        files w' !! path_str (bse_gz_path outdir d)
          = files w !! path_str (bse_gz_path outdir d).
Proof.
  intros Hv Hu Hnet Hst Hden Hcsv.
  rewrite (bse_per_date_cases _ outdir d w) by auto using strptime_strftime.
  cbv zeta. eexists. split; [reflexivity |].
  rewrite bse_download_file_cases, Hnet, Hst. cbv zeta. cbn [Z.eqb Pos.eqb].
  rewrite decide_False by done. cbn [snd].
  rewrite (compress_file_cases (PPath (bse_csv_path outdir d)) _ _
             (bse_with_suffix outdir d)).
  cbv zeta. cbn [to_path files add_line set_files add_request].
  pose proof (bse_raw_ne_csv outdir d). pose proof (bse_raw_ne_gz outdir d).
  rewrite lookup_insert_ne, Hcsv by done.
  cbn [snd files add_line set_files add_request].
  by rewrite lookup_insert_eq, lookup_insert_ne.
Qed.

End BsePipeline.

(** ** The concrete byte formats satisfy the interface *)

Section ToyLaws.

Lemma toy_bytes_pos (p : positive) : Toy.bytes_pos (Toy.pos_bytes p) = Some p.
Proof. induction p as [p IH | p IH |]; cbn; by rewrite ?IH. Qed.

Lemma toy_gzip_roundtrip (b : bytes) : Toy.gunzip (Toy.gz b) = Some b.
Proof. reflexivity. Qed.

Lemma toy_pickle_roundtrip (c : Cookies) : Toy.loads (Toy.dumps c) = Some c.
Proof.
  unfold Toy.loads, Toy.dumps. rewrite toy_bytes_pos. cbn. apply decode_encode.
Qed.

End ToyLaws.

#[local] Instance toy_laws : CodecLaws Toy.codecs.
Proof. split; [apply toy_gzip_roundtrip | apply toy_pickle_roundtrip]. Qed.

(** ** The model run on concrete worlds *)

Section Runs.
#[local] Existing Instance Toy.codecs.
Import Sample.

(** C1, at a Monday whose download succeeds: the per-date function of
    exchange A returns, but the download is still on disk under the name
    it was written to, uncompressed, and nothing is at
    [out/01JAN2024.csv.gz]: the compressor was given a name no file has. *)
Theorem bse_run_leaves_raw_csv :
  let run := Bse.download_bse_equity_bhavcopy "01JAN2024" "out" (world origin_csv) in
  fst run = Ret (bse_csv_path "out" jan1) ∧
  files (snd run) !! "out/01JAN2024.csv.gz" = None ∧
  files (snd run) !! "out/01Jan2024.csv" = Some csv_bytes ∧
  console (snd run)
  = [Downloaded "out/01Jan2024.csv"; InputNotFound "out/01JAN2024.csv";
     ExtractedSaved "out/01JAN2024.csv"].
Proof. vm_compute. repeat split; reflexivity. Qed.

(** C2, for exchange A on a one-day range whose download is answered
    with a 404: the failure is logged by the downloader, and the driver
    still lists the path for that date. *)
Theorem bse_range_lists_failed_download :
  let run := Bse.download_bhavcopy_range "01JAN2024" "01JAN2024" "out" (world origin_404) in
  fst run = Ret [bse_csv_path "out" jan1] ∧
  files (snd run) = no_files ∧
  console (snd run)
  = [FailedUrl (Bse.bhavcopy_url jan1) (HTTPError 404);
     InputNotFound "out/01JAN2024.csv";
     ExtractedSaved "out/01JAN2024.csv";
     Completed 1].
Proof. vm_compute. repeat split; reflexivity. Qed.

(** C4, at a path no file has: the error is caught and logged, and what
    comes back is [None], not a boolean. *)
Theorem compress_file_missing_returns_none :
  compress_file (PPath (mkpath "out/" "missing.csv")) (world origin_404)
  = (Ret PyNone, add_line (InputNotFound "out/missing.csv") (world origin_404))
  ∧ ¬ is_boolean PyNone.
Proof. split; [reflexivity | by intros [b Hb]]. Qed.

(** C9 fails: when the origin answers the download of exchange B with
    bytes that are not an archive, the run ends in [BadZipFile] and the
    raw download stays on disk. *)
Lemma nse_failed_run_leaves_archive :
  let run := Nse.download_nse_equity_bhavcopy "01JAN2024" "out" (world origin_garbage) in
  fst run = Raise BadZipFile ∧
  files (snd run) !! path_str (nse_zip_path "out" jan1) = Some csv_bytes ∧
  ¬ nse_intermediates_gone "out" jan1 (snd run).
Proof.
  assert (H : files (snd (Nse.download_nse_equity_bhavcopy "01JAN2024" "out"
                            (world origin_garbage)))
              !! path_str (nse_zip_path "out" jan1) = Some csv_bytes)
    by (vm_compute; reflexivity).
  cbv zeta. split_and!; [vm_compute; reflexivity | exact H |].
  intros [Hz _]. rewrite H in Hz. discriminate.
Qed.

(** The end-to-end example of the specification, for exchange B: Monday
    1 Jan 2024 to Sunday 7 Jan 2024 gives five paths, and the last two
    days are skipped and logged. *)
Example nse_first_week_of_2024 :
  let run := Nse.download_bhavcopy_range "01JAN2024" "07JAN2024" "out" (world origin_zip) in
  (∃ l, fst run = Ret l ∧ length l = 5%nat) ∧
  (∀ n, n ∈ ["20240101"; "20240102"; "20240103"; "20240104"; "20240105"] →
        files (snd run) !! ("out/" +:+ n +:+ ".csv.gz") = Some (Toy.gz csv_bytes)) ∧
  size (files (snd run)) = 6%nat ∧
  drop 10 (console (snd run))
  = [SkippingWeekend "Saturday 06-Jan-2024"; SkippingWeekend "Sunday 07-Jan-2024";
     Completed 5] ∧
  length (requests (snd run)) = 6%nat.
Proof.
  cbv zeta. split_and!.
  - eexists. split; [vm_compute; reflexivity | reflexivity].
  - intros n Hn. repeat (apply elem_of_cons in Hn as [-> | Hn]);
      [vm_compute; reflexivity .. | by apply elem_of_nil in Hn].
  - vm_compute. reflexivity.
  - vm_compute. reflexivity.
  - vm_compute. reflexivity.
Qed.

(** The driver of exchange B, on the same kind of failure as in
    [bse_range_lists_failed_download]: the downloader raises, the driver
    logs the date and leaves it out of the list. *)
Example nse_range_omits_failed_download :
  let run := Nse.download_bhavcopy_range "01JAN2024" "01JAN2024" "out" (world origin_html) in
  fst run = Ret [] ∧
  console (snd run)
  = [FailedDate "01JAN2024" (RuntimeError (nse_zip_url jan1)); Completed 0].
Proof. vm_compute. split; reflexivity. Qed.

(** An argument passed as [str], which the docstring allows: the
    compressed file is written, then [unlink] is called on the [str];
    the [AttributeError] is caught, the input stays, [None] comes back. *)
Example compress_file_str_argument :
  let run := compress_file (PStr "out/20240101.csv") world_with_csv in
  fst run = Ret PyNone ∧
  files (snd run) !! "out/20240101.csv" = Some csv_bytes ∧
  files (snd run) !! "out/20240101.csv.gz" = Some (Toy.gz csv_bytes) ∧
  console (snd run) = [CompressionError AttributeError].
Proof. vm_compute. repeat split; reflexivity. Qed.

(** Past the last day a [datetime] can hold the driver does not return:
    the step to the next day raises after the last day was processed. *)
Example range_ending_at_max_date :
  fst (Bse.download_bhavcopy_range "31DEC9999" "31DEC9999" "out" (world origin_404))
  = Raise OverflowError.
Proof. vm_compute. reflexivity. Qed.

End Runs.

(** ** Neither per-date function exhausts a loop bound *)

Section Termination.
Context {C : Codecs}.

Ltac prim_terminates := intros w; cbv beta delta [path_exists open_rb read_all open_wb write store unlink rename mkdir_p http_get or_raise ret raise]; repeat case_match; cbn; congruence.

Lemma terminates_path_exists (p : Path) : terminates (path_exists p).
Proof. prim_terminates. Qed.
Lemma terminates_open_rb (p : Path) : terminates (open_rb p).
Proof. prim_terminates. Qed.
Lemma terminates_read_all (p : Path) : terminates (read_all p).
Proof. prim_terminates. Qed.
Lemma terminates_open_wb (p : Path) : terminates (open_wb p).
Proof. prim_terminates. Qed.
Lemma terminates_write (p : Path) (b : bytes) : terminates (write p b).
Proof. prim_terminates. Qed.
Lemma terminates_store (p : Path) (b : bytes) : terminates (store p b).
Proof. prim_terminates. Qed.
Lemma terminates_unlink (p : Path) : terminates (unlink p).
Proof. prim_terminates. Qed.
Lemma terminates_rename (p q : Path) : terminates (rename p q).
Proof. prim_terminates. Qed.
Lemma terminates_mkdir_p (d : string) : terminates (mkdir_p d).
Proof. prim_terminates. Qed.
Lemma terminates_http_get (jar : Cookies) (url : string) : terminates (http_get jar url).
Proof. prim_terminates. Qed.
Lemma terminates_or_raise {A} (o : option A) (e : exn) : terminates (or_raise o e).
Proof. prim_terminates. Qed.

Lemma terminates_for_each {A} (l : list A) (body : A → M unit) :
  (∀ x, terminates (body x)) → terminates (for_each l body).
Proof.
  intros Hb. induction l as [| x l IH]; cbn [for_each].
  - apply terminates_ret.
  - by apply terminates_bind.
Qed.

Ltac term_step :=
  first
    [ apply terminates_ret | apply terminates_raise | apply terminates_print
    | apply terminates_path_exists | apply terminates_open_rb
    | apply terminates_read_all | apply terminates_open_wb
    | apply terminates_write | apply terminates_store | apply terminates_unlink
    | apply terminates_rename | apply terminates_mkdir_p
    | apply terminates_http_get | apply terminates_or_raise
    | apply terminates_for_each; intros ?
    | apply terminates_bind; [| intros ?]
    | apply terminates_try; [| intros ?]
    | match goal with
      | |- terminates (if ?b then _ else _) => destruct b
      | |- terminates (match ?x with _ => _ end) => destruct x
      end ].

Lemma compress_file_terminates (a : pathlike) : terminates (compress_file a).
Proof.
  unfold compress_file, copyfileobj_gzip, unlink_arg. cbv zeta.
  repeat term_step.
Qed.

Lemma bse_per_date_terminates (date_str output_dir : string) :
  terminates (Bse.download_bse_equity_bhavcopy date_str output_dir).
Proof.
  unfold Bse.download_bse_equity_bhavcopy, Bse.download_file. cbv zeta.
  repeat first [apply compress_file_terminates | term_step].
Qed.

Lemma nse_per_date_terminates (date_str output_dir : string) :
  terminates (Nse.download_nse_equity_bhavcopy date_str output_dir).
Proof.
  unfold Nse.download_nse_equity_bhavcopy, Nse.get_or_set_cookies,
    Nse.download_file, Nse.extract_file, session_get. cbv zeta.
  repeat first [apply compress_file_terminates | term_step].
Qed.

End Termination.

(** ** The theorems at concrete inputs *)

Section Witnesses.
#[local] Existing Instance Toy.codecs.
Import Sample.

Lemma html_response_rejected_witness :
  (∃ w', Nse.download_file (mksession ∅ HEADERS) (nse_zip_url jan1)
           (nse_zip_path "out" jan1) (world origin_html)
         = (Raise (RuntimeError (nse_zip_url jan1)), w') ∧
         files w' = files (world origin_html))
  ∧
  (∃ e w', Nse.download_nse_equity_bhavcopy "01JAN2024" "out" (world origin_html)
           = (Raise e, w') ∧
     files w' !! path_str (nse_gz_path "out" jan1)
       = files (world origin_html) !! path_str (nse_gz_path "out" jan1) ∧
     files w' !! path_str (nse_zip_path "out" jan1)
       = files (world origin_html) !! path_str (nse_zip_path "out" jan1) ∧
     files w' !! path_str (nse_csv_path "out" jan1)
       = files (world origin_html) !! path_str (nse_csv_path "out" jan1)).
Proof.
  split.
  - apply (proj1 html_response_rejected (mksession ∅ HEADERS) (nse_zip_url jan1)
             (nse_zip_path "out" jan1) (world origin_html) html_page).
    + reflexivity.
    + vm_compute. reflexivity.
  - apply (proj2 html_response_rejected "01JAN2024" "out" jan1 (world origin_html)).
    + vm_compute. reflexivity.
    + intros jar. exists html_page. split; [reflexivity | vm_compute; reflexivity].
Defined.

Lemma get_or_set_cookies_spec_witness :
  (∃ res, Nse.get_or_set_cookies (mksession ∅ HEADERS) nse_cookie_path world_with_cookies
          = (res, world_with_cookies) ∧
          (∀ c, pickle_loads (Toy.dumps jar0) = Some c →
                res = Ret (cookies_update (mksession ∅ HEADERS) c)))
  ∧
  (∃ res w', Nse.get_or_set_cookies (mksession ∅ HEADERS) nse_cookie_path (world origin_zip)
             = (res, w') ∧
     requests w' = requests (world origin_zip) ++ [Nse.HOMEPAGE] ∧
     (∀ r, net (world origin_zip) (cookies (mksession ∅ HEADERS)) Nse.HOMEPAGE = Some r →
           path_str nse_cookie_path ∉ denied (world origin_zip) →
           res = Ret (cookies_update (mksession ∅ HEADERS) (resp_cookies r)) ∧
           files w' = <[path_str nse_cookie_path := pickle_dumps (resp_cookies r)]>
                        (files (world origin_zip)))).
Proof.
  split.
  - apply (proj1 (get_or_set_cookies_spec (mksession ∅ HEADERS) nse_cookie_path
                    world_with_cookies) (Toy.dumps jar0)).
    vm_compute. reflexivity.
  - apply (proj2 (get_or_set_cookies_spec (mksession ∅ HEADERS) nse_cookie_path
                    (world origin_zip))).
    vm_compute. reflexivity.
Defined.

Lemma compress_file_roundtrip_witness :
  ∃ (b : bytes) (gz : Path),
    files world_with_csv !! "out/20240101.csv" = Some b ∧
    with_suffix (mkpath "out/" "20240101.csv") ".csv.gz" = Some gz ∧
    files (snd (compress_file (PPath (mkpath "out/" "20240101.csv")) world_with_csv))
      !! "out/20240101.csv" = None ∧
    ∃ z, files (snd (compress_file (PPath (mkpath "out/" "20240101.csv")) world_with_csv))
           !! path_str gz = Some z ∧
         gzip_decompress z = Some b.
Proof.
  apply (compress_file_roundtrip (PPath (mkpath "out/" "20240101.csv")) world_with_csv
           (snd (compress_file (PPath (mkpath "out/" "20240101.csv")) world_with_csv))).
  vm_compute. reflexivity.
Defined.

Lemma range_body_weekend_witness :
  weekday (mkdate 2024 1 6) = 5 ∧
  range_body Nse.download_nse_equity_bhavcopy "out" (mkdate 2024 1 6) [] (world origin_zip)
  = (Ret [], add_line (SkippingWeekend "Saturday 06-Jan-2024") (world origin_zip)).
Proof.
  split; [reflexivity |].
  apply (range_body_weekend Nse.download_nse_equity_bhavcopy "out" (mkdate 2024 1 6) []
           (world origin_zip)).
  left. reflexivity.
Defined.

Lemma first_week_days :
  Forall (λ d, is_weekday d = true ∧ valid_b d = true)
    (dates_in_range (mkdate 2024 1 1) (mkdate 2024 1 5)).
Proof.
  replace (dates_in_range (mkdate 2024 1 1) (mkdate 2024 1 5))
    with [mkdate 2024 1 1; mkdate 2024 1 2; mkdate 2024 1 3; mkdate 2024 1 4;
          mkdate 2024 1 5] by (vm_compute; reflexivity).
  repeat (constructor; [split; reflexivity |]). constructor.
Qed.

Lemma range_driver_all_succeed_witness :
  ∃ l w', Bse.download_bhavcopy_range "01JAN2024" "05JAN2024" "out" (world origin_csv)
          = (Ret l, w') ∧
          length l = weekdays_in_range (mkdate 2024 1 1) (mkdate 2024 1 5) ∧
          length l = 5%nat.
Proof.
  destruct (range_driver_all_succeed Bse.download_bse_equity_bhavcopy "out"
              (dir_usable "out") "01JAN2024" "05JAN2024"
              (mkdate 2024 1 1) (mkdate 2024 1 5) (world origin_csv))
    as [Hlen Hret].
  - vm_compute. reflexivity.
  - vm_compute. reflexivity.
  - intros d Hd. by apply (proj1 (Forall_forall _ _) first_week_days d).
  - intros d w0 Hd Hu. apply bse_per_date_returns; [| done].
    by apply (proj1 (Forall_forall _ _) first_week_days d).
  - split; [reflexivity | vm_compute; intros H; inversion H].
  - destruct Hret as (l & w' & Hrun); [vm_compute; reflexivity |].
    exists l, w'. pose proof (Hlen l w' Hrun) as Hl.
    split_and!; [exact Hrun | exact Hl | rewrite Hl; vm_compute; reflexivity].
Defined.

Lemma nse_run_leaves_only_gz_witness :
  let run := Nse.download_nse_equity_bhavcopy "01JAN2024" "out" (world origin_zip) in
  nse_intermediates_gone "out" jan1 (snd run) ∧
  ∃ body, files (snd run) !! path_str (nse_gz_path "out" jan1) = Some (gzip_compress body).
Proof.
  cbv zeta.
  destruct (nse_run_leaves_only_gz "01JAN2024" "out" jan1 (world origin_zip)
              (snd (Nse.download_nse_equity_bhavcopy "01JAN2024" "out" (world origin_zip)))
              (nse_csv_path "out" jan1))
    as (_ & Hgone & _ & _ & _ & _ & body & _ & _ & _ & _ & Hgz & _).
  - vm_compute. reflexivity.
  - vm_compute. reflexivity.
  - vm_compute. intros H. inversion H.
  - split; [exact Hgone | by exists body].
Defined.


End Witnesses.

(** * Further properties of the two scripts *)

(** ** The downloaders *)

Section Downloaders.
Context {C : Codecs}.

(** X1. The downloader of exchange A (runner_bse.py 23-35) never lets an
    exception out and makes exactly one request. It returns the
    destination only for a 200 answer it could write, and then the file
    holds the body; when it returns [None] no file was touched and one
    failure line was printed. *)
Theorem bse_download_file_total (url : string) (dest : Path) (w : World) :
  ∃ o w', Bse.download_file url dest w = (Ret o, w') ∧
    requests w' = requests w ++ [url] ∧
    match o with
    | Some p =>
        p = dest ∧
        ∃ r, net w ∅ url = Some r ∧ status_code r = 200 ∧
             files w' = <[path_str dest := content r]> (files w) ∧
             console w' = console w ++ [Downloaded (path_str dest)]
    | None =>
        files w' = files w ∧ ∃ e, console w' = console w ++ [FailedUrl url e]
    end.
Proof.
  rewrite bse_download_file_cases. cbv zeta.
  destruct (net w ∅ url) as [r |] eqn:Hnet.
  - destruct (Z.eqb_spec (status_code r) 200) as [Hs | Hs].
    + case_decide.
      * do 2 eexists. split_and!; [reflexivity | reflexivity |]. cbn. eauto.
      * do 2 eexists. split_and!; [reflexivity | reflexivity |]. cbn.
        split; [done |]. by exists r.
    + do 2 eexists. split_and!; [reflexivity | reflexivity |]. cbn. eauto.
  - do 2 eexists. split_and!; [reflexivity | reflexivity |]. cbn. eauto.
Qed.

(** X2. The downloader of exchange B (runner_nse.py 43-58) does not look at
    the status code: any answer whose [Content-Type] lacks [text/html] is
    written to the destination, replacing what was there, and the file
    then holds the body exactly, whatever the size of the chunks. *)
Theorem nse_download_ignores_status (session : Session) (url : string)
    (dest : Path) (w : World) (r : Response) :
  net w (cookies session) url = Some r →
  ¬ is_html r →
  path_str dest ∉ denied w →
  ∃ w', Nse.download_file session url dest w = (Ret tt, w') ∧
        files w' = <[path_str dest := content r]> (files w) ∧
        requests w' = requests w ++ [url] ∧
        console w' = console w.
Proof.
  intros Hnet Hhtml Hd. rewrite nse_download_file_cases, Hnet. cbv zeta.
  unfold is_html in Hhtml.
  destruct (Str.contains _ _); [done |].
  rewrite decide_False by done. by eexists.
Qed.

End Downloaders.

(** ** The extractor *)

Section Extractor.
Context {C : Codecs}.

Lemma getinfo_head (n : string) (b0 : bytes) (rest : list (string * bytes)) :
  is_Some (Nse.getinfo n ((n, b0) :: rest)).
Proof.
  unfold Nse.getinfo.
  destruct (list_find_elem_of (λ m : string * bytes, fst m = n)
              (reverse ((n, b0) :: rest)) (n, b0)) as [[i x] Hx].
  - apply elem_of_reverse. left.
  - done.
  - rewrite Hx. by eexists.
Qed.

(** X3. [extract_file] (runner_nse.py 61-73), when it returns: the archive
    had at least one member, the path returned is the target directory
    joined with the name of the first member, the archive is gone, and no
    other path was touched: further members of the archive are not
    extracted. *)
Theorem extract_file_first_member_only (file : Path) (extract_to : string)
    (w w' : World) (ex : Path) :
  Nse.extract_file file extract_to w = (Ret ex, w') →
  ∃ archive n b0 rest body,
    files w !! path_str file = Some archive ∧
    zip_members archive = Some ((n, b0) :: rest) ∧
    Nse.getinfo n ((n, b0) :: rest) = Some body ∧
    ex = joinpath extract_to n ∧
    files w' !! path_str file = None ∧
    (path_str ex ≠ path_str file → files w' !! path_str ex = Some body) ∧
    (∀ q, q ≠ path_str file → q ≠ path_str ex → files w' !! q = files w !! q) ∧
    requests w' = requests w ∧ console w' = console w.
Proof.
  rewrite extract_file_cases.
  destruct (files w !! path_str file) as [archive |] eqn:Hf; [| discriminate].
  destruct (zip_members archive) as [members |] eqn:Hm; [| discriminate].
  destruct members as [| [n b0] rest]; [discriminate |].
  cbn [fmap list_fmap head fst].
  destruct (Nse.getinfo n ((n, b0) :: rest)) as [body |] eqn:Hb; [| discriminate].
  cbv zeta. case_decide; [discriminate |].
  case_decide as He.
  - case_decide; [discriminate |]. intros [= <- <-].
    exists archive, n, b0, rest, body. split_and!; try done.
    + cbn. apply lookup_delete_eq.
    + intros q Hq _. cbn. by rewrite lookup_delete_ne.
  - case_decide; [discriminate |]. intros [= <- <-].
    exists archive, n, b0, rest, body. split_and!; try done.
    + cbn. apply lookup_delete_eq.
    + intros _. cbn. rewrite lookup_delete_ne by done. apply lookup_insert_eq.
    + intros q Hq Hq'. cbn. by rewrite lookup_delete_ne, lookup_insert_ne.
Qed.

(** X4. [extract_file] on a file that is not an archive, or on an archive
    without members: [BadZipFile], respectively [IndexError] from
    [namelist()[0]], and the file is left where it was. *)
Theorem extract_file_bad_archive (file : Path) (extract_to : string)
    (w : World) (archive : bytes) :
  files w !! path_str file = Some archive →
  (zip_members archive = None →
     Nse.extract_file file extract_to w = (Raise BadZipFile, w)) ∧
  (zip_members archive = Some [] →
     Nse.extract_file file extract_to w = (Raise IndexError, w)).
Proof.
  intros Hf. rewrite extract_file_cases, Hf.
  split; intros ->; reflexivity.
Qed.

End Extractor.

(** ** The compressor *)

Section CompressorMore.
Context {C : Codecs}.

(** X5. [compress_file] (runner_bse.py 38-66, runner_nse.py 76-104) touches
    two paths at most, the input and its compressed sibling; it makes no
    request and, whatever happens inside the [try], hands back [True] or
    [None]. *)
Theorem compress_file_touches_two_paths (a : pathlike) (gz : Path)
    (w w' : World) (res : outcome pyvalue) :
  with_suffix (to_path a) ".csv.gz" = Some gz →
  compress_file a w = (res, w') →
  (res = Ret (PyBool true) ∨ res = Ret PyNone) ∧
  requests w' = requests w ∧ denied w' = denied w ∧
  ∀ q, q ≠ path_str (to_path a) → q ≠ path_str gz →
       files w' !! q = files w !! q.
Proof.
  intros Hgz. rewrite (compress_file_cases a gz w Hgz). cbv zeta.
  destruct (files w !! path_str (to_path a)) as [b |].
  2: { intros [= <- <-]. split_and!; auto. }
  case_decide.
  { intros [= <- <-]. split_and!; auto. }
  destruct a as [s | p].
  { intros [= <- <-]. split_and!; auto.
    intros q _ Hq. cbn. by rewrite lookup_insert_ne. }
  case_decide.
  { intros [= <- <-]. split_and!; auto.
    intros q _ Hq. cbn. by rewrite lookup_insert_ne. }
  intros [= <- <-]. split_and!; auto.
  intros q Hq Hq'. cbn. by rewrite lookup_delete_ne, lookup_insert_ne.
Qed.

Lemma of_string_str (s : string) : s ≠ "." → path_str (of_string s) = s.
Proof.
  intros Hs. unfold of_string. rewrite decide_False by done.
  unfold path_str. cbn [parent name]. apply str_take_drop.
Qed.

(** X6. [compress_file] given the path as a [str], which its docstring
    allows: the compressed sibling is written, but [unlink] is called on
    the [str] itself, so the input is not removed, the [AttributeError]
    is caught and logged, and [None] is returned. *)
Theorem compress_file_str_keeps_input (s : string) (gz : Path) (b : bytes)
    (w : World) :
  s ≠ "." →
  with_suffix (of_string s) ".csv.gz" = Some gz →
  files w !! s = Some b →
  path_str gz ∉ denied w →
  ∃ w', compress_file (PStr s) w = (Ret PyNone, w') ∧
        files w' !! s = Some b ∧
        files w' !! path_str gz = Some (gzip_compress b) ∧
        console w' = console w ++ [CompressionError AttributeError].
Proof.
  intros Hs Hgz Hb Hd.
  pose proof (with_suffix_fresh _ _ Hgz) as Hne.
  rewrite (compress_file_cases (PStr s) gz w Hgz). cbv zeta. cbn [to_path].
  rewrite of_string_str in * by done. rewrite Hb.
  rewrite decide_False by done. eexists. split; [reflexivity |].
  cbn. rewrite lookup_insert_ne by done. rewrite lookup_insert_eq. done.
Qed.


End CompressorMore.

(** ** The range driver *)

Section DriverMore.
Context {C : Codecs}.
Variable per_date : string → string → M Path.
Variable output_dir : string.

Lemma bind_Ret_inv {A B} (m : M A) (k : A → M B) (w w' : World) (b : B) :
  bind m k w = (Ret b, w') →
  ∃ a w1, m w = (Ret a, w1) ∧ k a w1 = (Ret b, w').
Proof. unfold bind. destruct (m w) as [[a | e |] w1]; [eauto | done | done]. Qed.

(** One turn of the loop never raises: it returns the list, longer by
    at most one path, or stops on the loop bound of the per-date
    function. *)
Lemma range_body_outcome (d : datetime) (acc : list Path) (w : World) :
  (∀ x y, terminates (per_date x y)) →
  ∃ l w', range_body per_date output_dir d acc w = (Ret (acc ++ l), w') ∧
          (length l <= if is_weekday d then 1 else 0)%nat.
Proof.
  intros Hp. unfold range_body, is_weekday.
  destruct (weekday d <? 5).
  - unfold try_except, bind. specialize (Hp (Str.upper (strftime_dbY d)) output_dir w).
    destruct (per_date _ output_dir w) as [[p | e |] w1]; cbn in Hp; [| | done].
    + exists [p], w1. split; [reflexivity | cbn; lia].
    + exists [], (add_line (FailedDate (Str.upper (strftime_dbY d)) e) w1).
      rewrite app_nil_r. split; [reflexivity | cbn; lia].
  - exists [], (add_line (SkippingWeekend (strftime_A_d_b_Y d)) w).
    rewrite app_nil_r. split; [reflexivity | cbn; lia].
Qed.

Lemma run_dates_outcome (ds : list datetime) :
  (∀ x y, terminates (per_date x y)) →
  ∀ (acc : list Path) (w : World),
    ∃ l w', run_dates per_date output_dir ds acc w = (Ret (acc ++ l), w') ∧
            (length l <= length (filter (λ d, is_weekday d = true) ds))%nat.
Proof.
  intros Hp. induction ds as [| d ds IH]; intros acc w.
  - exists [], w. rewrite app_nil_r. split; [reflexivity | cbn; lia].
  - cbn [run_dates]. unfold bind at 1.
    destruct (range_body_outcome d acc w Hp) as (l1 & w1 & -> & Hl1).
    destruct (IH (acc ++ l1) w1) as (l2 & w2 & -> & Hl2).
    exists (l1 ++ l2), w2. rewrite app_assoc. split; [reflexivity |].
    rewrite length_app, filter_cons.
    destruct (is_weekday d); [rewrite decide_True by done | rewrite decide_False by done];
      cbn [length]; lia.
Qed.

(** X8. No failure of a single date stops the batch (the [try] of lines
    120-124 and 168-172): for parseable bounds, the end before 31 Dec
    9999 and a per-date function that terminates, the driver returns a
    list whatever the per-date function raises, and the list is no
    longer than the number of weekdays of the range. *)
Theorem range_driver_never_aborts (start_date end_date : string) (s e : datetime)
    (w : World) :
  strptime (Str.upper start_date) = Some s →
  strptime (Str.upper end_date) = Some e →
  toordinal e < MAXORDINAL →
  (∀ x y, terminates (per_date x y)) →
  ∃ l w', range_driver per_date start_date end_date output_dir w = (Ret l, w') ∧
          (length l <= weekdays_in_range s e)%nat.
Proof.
  intros Hs He Hlt Hp.
  pose proof (strptime_valid _ _ Hs) as Vs. pose proof (strptime_valid _ _ He) as Ve.
  destruct (run_dates_outcome (dates_in_range s e) Hp [] w) as (l & w1 & Hrun & Hlen).
  exists l, (add_line (Completed (length l)) w1). split; [| exact Hlen].
  unfold range_driver. rewrite Hs, He.
  unfold or_raise, bind at 1, ret at 1, bind at 1, ret at 1, bind at 1.
  rewrite range_loop_dates by done. unfold bind at 1. rewrite Hrun.
  unfold loop_exit. rewrite decide_True by auto. reflexivity.
Qed.

(** The paths of the list are those the per-date function returned, one
    for each weekday on which it returned, in the order of the dates. *)
Lemma run_dates_sublist (f : datetime → Path) (ds : list datetime) :
  (∀ d w p w', d ∈ ds →
     per_date (Str.upper (strftime_dbY d)) output_dir w = (Ret p, w') → p = f d) →
  ∀ (acc l : list Path) (w w' : World),
    run_dates per_date output_dir ds acc w = (Ret l, w') →
    ∃ ds', ds' `sublist_of` filter (λ d, is_weekday d = true) ds ∧
           l = acc ++ (f <$> ds').
Proof.
  induction ds as [| d ds IH]; intros Hf acc l w w' Hrun.
  - cbn in Hrun. injection Hrun as <- <-. exists []. by rewrite app_nil_r.
  - cbn [run_dates] in Hrun. apply bind_Ret_inv in Hrun as (acc1 & w1 & Hbody & Hrun).
    apply IH in Hrun as (ds' & Hsub & ->).
    2: { intros d0 w0 p w0' Hd0. apply Hf. by right. }
    unfold range_body in Hbody.
    destruct (weekday d <? 5) eqn:Hwd.
    + rewrite filter_cons_True by exact Hwd.
      unfold try_except, bind, ret in Hbody.
      destruct (per_date _ output_dir w) as [[p | e |] w0] eqn:Hp.
      * injection Hbody as <- <-.
        apply Hf in Hp as ->; [| by left].
        exists (d :: ds'). split; [by constructor |].
        by rewrite <- app_assoc.
      * cbn in Hbody. injection Hbody as <- <-.
        exists ds'. split; [by constructor |]. done.
      * discriminate.
    + rewrite filter_cons_False by (unfold is_weekday; congruence).
      unfold bind, print, ret in Hbody. injection Hbody as <- <-.
      by exists ds'.
Qed.

Lemma range_driver_sublist (f : datetime → Path) (start_date end_date : string)
    (s e : datetime) (w w' : World) (l : list Path) :
  strptime (Str.upper start_date) = Some s →
  strptime (Str.upper end_date) = Some e →
  (∀ d w0 p w1, d ∈ dates_in_range s e →
     per_date (Str.upper (strftime_dbY d)) output_dir w0 = (Ret p, w1) → p = f d) →
  range_driver per_date start_date end_date output_dir w = (Ret l, w') →
  ∃ ds, ds `sublist_of` filter (λ d, is_weekday d = true) (dates_in_range s e) ∧
        l = f <$> ds.
Proof.
  intros Hs He Hf.
  pose proof (strptime_valid _ _ Hs) as Vs. pose proof (strptime_valid _ _ He) as Ve.
  unfold range_driver. rewrite Hs, He.
  unfold or_raise, bind at 1, ret at 1, bind at 1, ret at 1.
  intros (l1 & w1 & Hloop & Hrest)%bind_Ret_inv.
  unfold bind, print, ret in Hrest. injection Hrest as <- <-.
  rewrite range_loop_dates in Hloop by done.
  apply bind_Ret_inv in Hloop as (l0 & w0 & Hrun & Hexit).
  unfold loop_exit in Hexit. case_decide; [| discriminate].
  injection Hexit as <- <-.
  by apply (run_dates_sublist f) in Hrun.
Qed.

End DriverMore.

Section DriverPaths.
Context {C : Codecs}.

Lemma dates_in_range_valid (s e d : datetime) :
  valid_b s = true → valid_b e = true → d ∈ dates_in_range s e → valid_b d = true.
Proof.
  intros Vs Ve (i & Hi)%list_elem_of_lookup.
  by apply dates_in_range_lookup in Hi as [? _].
Qed.

Lemma bse_per_date_result (date_str outdir : string) (d : datetime)
    (w w' : World) (p : Path) :
  strptime (Str.upper date_str) = Some d →
  Bse.download_bse_equity_bhavcopy date_str outdir w = (Ret p, w') →
  p = bse_csv_path outdir d.
Proof.
  intros Hd Hrun. unfold Bse.download_bse_equity_bhavcopy in Hrun.
  rewrite Hd in Hrun. unfold or_raise at 1, bind at 1, ret at 1 in Hrun.
  cbv zeta in Hrun.
  repeat (apply bind_Ret_inv in Hrun as (? & ? & _ & Hrun)).
  inversion Hrun. reflexivity.
Qed.

Lemma nse_per_date_result (date_str outdir : string) (d : datetime)
    (w w' : World) (p : Path) :
  strptime (Str.upper date_str) = Some d →
  Nse.download_nse_equity_bhavcopy date_str outdir w = (Ret p, w') →
  p = nse_csv_path outdir d.
Proof.
  intros Hd Hrun. unfold Nse.download_nse_equity_bhavcopy in Hrun.
  rewrite Hd in Hrun. unfold or_raise at 1, bind at 1, ret at 1 in Hrun.
  cbv zeta in Hrun.
  repeat (apply bind_Ret_inv in Hrun as (? & ? & _ & Hrun)).
  inversion Hrun. reflexivity.
Qed.

(** X9. What the two drivers return (lines 115-130 and 163-178): the paths
    [<outdir>/<DDMMMYYYY>.csv], respectively [<outdir>/<YYYYMMDD>.csv],
    of some of the weekdays of the range, each at most once and in the
    order of the dates. The paths are those of the uncompressed CSV, not
    of the [.csv.gz] file. *)
Theorem drivers_return_paths_in_date_order (start_date end_date outdir : string)
    (s e : datetime) (w w' : World) (l : list Path) :
  strptime (Str.upper start_date) = Some s →
  strptime (Str.upper end_date) = Some e →
  (Bse.download_bhavcopy_range start_date end_date outdir w = (Ret l, w') →
   ∃ ds, ds `sublist_of` filter (λ d, is_weekday d = true) (dates_in_range s e) ∧
         l = bse_csv_path outdir <$> ds)
  ∧
  (Nse.download_bhavcopy_range start_date end_date outdir w = (Ret l, w') →
   ∃ ds, ds `sublist_of` filter (λ d, is_weekday d = true) (dates_in_range s e) ∧
         l = nse_csv_path outdir <$> ds).
Proof.
  intros Hs He.
  pose proof (strptime_valid _ _ Hs) as Vs. pose proof (strptime_valid _ _ He) as Ve.
  split; intros Hrun.
  - eapply range_driver_sublist; [exact Hs | exact He | | exact Hrun].
    intros d w0 p w1 Hd Hp. eapply bse_per_date_result; [| exact Hp].
    apply strptime_strftime. by apply (dates_in_range_valid s e).
  - eapply range_driver_sublist; [exact Hs | exact He | | exact Hrun].
    intros d w0 p w1 Hd Hp. eapply nse_per_date_result; [| exact Hp].
    apply strptime_strftime. by apply (dates_in_range_valid s e).
Qed.

Variable per_date : string → string → M Path.
Variable output_dir : string.


End DriverPaths.

Section BseDriver.
Context {C : Codecs}.


End BseDriver.

(** ** Dates, names and URLs *)

Section DatesMore.



Lemma fmt4_inj (a b : Z) :
  0 <= a <= 9999 → 0 <= b <= 9999 → Str.fmt4 a = Str.fmt4 b → a = b.
Proof.
  intros Ha Hb E. apply (f_equal parse_year) in E.
  rewrite !parse_year_fmt4 in E by done. by injection E.
Qed.

Lemma fmt2_inj (a b : Z) :
  0 <= a <= 99 → 0 <= b <= 99 → Str.fmt2 a = Str.fmt2 b → a = b.
Proof.
  intros Ha Hb E. unfold Str.fmt2 in E. injection E as E1 E2.
  apply (f_equal Str.digit_val) in E1, E2.
  rewrite !digit_val_char in E1, E2 by apply digit_range.
  injection E1 as E1. injection E2 as E2.
  assert (a / 10 mod 10 = a / 10).
  { apply Z.mod_small. split; [apply Z.div_pos; lia | apply Z.div_lt_upper_bound; lia]. }
  assert (b / 10 mod 10 = b / 10).
  { apply Z.mod_small. split; [apply Z.div_pos; lia | apply Z.div_lt_upper_bound; lia]. }
  pose proof (Z.div_mod a 10 ltac:(lia)). pose proof (Z.div_mod b 10 ltac:(lia)). lia.
Qed.

Lemma Ymd_inj (d1 d2 : datetime) :
  valid_b d1 = true → valid_b d2 = true →
  strftime_Ymd d1 = strftime_Ymd d2 → d1 = d2.
Proof.
  intros V1 V2 E.
  pose proof (valid_b_bounds d1 V1) as (? & ? & ?).
  pose proof (valid_b_bounds d2 V2) as (? & ? & ?).
  pose proof (days_in_month_le_31 (year d1) (month d1)).
  pose proof (days_in_month_le_31 (year d2) (month d2)).
  assert (E4 : Str.fmt4 (year d1) = Str.fmt4 (year d2))
    by exact (f_equal (Str.take 4) E).
  assert (Em : Str.fmt2 (month d1) = Str.fmt2 (month d2))
    by exact (f_equal (λ s, Str.take 2 (Str.drop 4 s)) E).
  assert (Ed : Str.fmt2 (day d1) = Str.fmt2 (day d2))
    by exact (f_equal (Str.drop 6) E).
  apply fmt4_inj in E4; [| lia | lia].
  apply fmt2_inj in Em; [| lia | lia].
  apply fmt2_inj in Ed; [| lia | lia].
  destruct d1, d2; cbn in *; congruence.
Qed.

Lemma Ymd_length (d : datetime) : String.length (strftime_Ymd d) = 8%nat.
Proof. reflexivity. Qed.

Lemma app_inj_r (s1 s2 t : string) :
  String.length s1 = String.length s2 → s1 +:+ t = s2 +:+ t → s1 = s2.
Proof.
  intros Hl E. apply (f_equal (Str.take (String.length s1))) in E.
  rewrite str_take_app_length in E. rewrite Hl in E.
  by rewrite str_take_app_length in E.
Qed.

Lemma dbY_inj (d1 d2 : datetime) :
  valid_b d1 = true → valid_b d2 = true →
  Str.upper (strftime_dbY d1) = Str.upper (strftime_dbY d2) → d1 = d2.
Proof.
  intros V1 V2 E. apply (f_equal (λ s, strptime (Str.upper s))) in E. cbn beta in E.
  rewrite !strptime_strftime in E by done. by injection E.
Qed.

(** X12. Two days never share a URL or a file: the download URL of each
    exchange, the raw download and the compressed file of exchange A, and
    the archive and the compressed file of exchange B are different for
    different days (lines 84-93 and 127-140). *)
Theorem names_differ_by_date (outdir : string) (d1 d2 : datetime) :
  valid_b d1 = true → valid_b d2 = true → d1 ≠ d2 →
  Bse.bhavcopy_url d1 ≠ Bse.bhavcopy_url d2 ∧
  nse_zip_url d1 ≠ nse_zip_url d2 ∧
  path_str (bse_raw_path outdir d1) ≠ path_str (bse_raw_path outdir d2) ∧
  path_str (bse_gz_path outdir d1) ≠ path_str (bse_gz_path outdir d2) ∧
  path_str (nse_zip_path outdir d1) ≠ path_str (nse_zip_path outdir d2) ∧
  path_str (nse_gz_path outdir d1) ≠ path_str (nse_gz_path outdir d2).
Proof.
  intros V1 V2 Hne.
  assert (Hy : ∀ t, strftime_Ymd d1 +:+ t ≠ strftime_Ymd d2 +:+ t).
  { intros t E. apply app_inj_r in E; [| by rewrite !Ymd_length]. by apply Ymd_inj in E. }
  assert (Hu : ∀ t, Str.upper (strftime_dbY d1) +:+ t ≠ Str.upper (strftime_dbY d2) +:+ t).
  { intros t E. apply app_inj_r in E; [| by rewrite !upper_length, !dbY_length].
    by apply dbY_inj in E. }
  split_and!.
  - unfold Bse.bhavcopy_url. intros E.
    do 2 apply (inj (String.app _)) in E. by apply Hy in E.
  - unfold nse_zip_url, Nse.zip_filename. intros E.
    do 3 apply (inj (String.app _)) in E. by apply Hy in E.
  - apply joinpath_ne. intros E.
    apply app_inj_r in E; [| by rewrite !dbY_length].
    apply (f_equal Str.upper) in E. by apply dbY_inj in E.
  - apply joinpath_ne. apply Hu.
  - apply joinpath_ne. unfold Nse.zip_filename. intros E.
    apply (inj (String.app _)) in E. by apply Hy in E.
  - apply joinpath_ne. apply Hy.
Qed.

(** X13. Any seven consecutive days hold five weekdays: over such a range the
    loop test [current.weekday() < 5] lets the per-date function be
    called on exactly five days, wherever the range starts. *)
Theorem seven_days_five_weekdays (s e : datetime) :
  valid_b s = true → valid_b e = true →
  toordinal e = toordinal s + 6 →
  weekdays_in_range s e = 5%nat.
Proof.
  intros Vs Ve He. pose proof (toordinal_range e Ve) as Hr.
  unfold weekdays_in_range, dates_in_range.
  replace (Z.to_nat (toordinal e - toordinal s + 1)) with 7%nat by lia.
  cbn [days_from].
  set (d1 := next_day s). set (d2 := next_day d1). set (d3 := next_day d2).
  set (d4 := next_day d3). set (d5 := next_day d4). set (d6 := next_day d5).
  assert (H0 : toordinal s = toordinal s + 0) by lia.
  assert (H1 : valid_b d1 = true ∧ toordinal d1 = toordinal s + 1).
  { split; [apply next_day_valid; [done | lia] | subst d1; rewrite toordinal_next_day by done; lia]. }
  destruct H1 as [V1 H1].
  assert (H2 : valid_b d2 = true ∧ toordinal d2 = toordinal s + 2).
  { split; [apply next_day_valid; [done | lia] | subst d2; rewrite toordinal_next_day by done; lia]. }
  destruct H2 as [V2 H2].
  assert (H3 : valid_b d3 = true ∧ toordinal d3 = toordinal s + 3).
  { split; [apply next_day_valid; [done | lia] | subst d3; rewrite toordinal_next_day by done; lia]. }
  destruct H3 as [V3 H3].
  assert (H4 : valid_b d4 = true ∧ toordinal d4 = toordinal s + 4).
  { split; [apply next_day_valid; [done | lia] | subst d4; rewrite toordinal_next_day by done; lia]. }
  destruct H4 as [V4 H4].
  assert (H5 : valid_b d5 = true ∧ toordinal d5 = toordinal s + 5).
  { split; [apply next_day_valid; [done | lia] | subst d5; rewrite toordinal_next_day by done; lia]. }
  destruct H5 as [V5 H5].
  assert (H6 : toordinal d6 = toordinal s + 6).
  { subst d6. rewrite toordinal_next_day by done. lia. }
  pose proof (Z.div_mod (toordinal s + 6) 7 ltac:(lia)) as Hdm.
  pose proof (Z.mod_pos_bound (toordinal s + 6) 7 ltac:(lia)) as Hb.
  set (q := (toordinal s + 6) / 7) in *. set (r := (toordinal s + 6) mod 7) in *.
  assert (Hwd : ∀ d i, toordinal d = toordinal s + i →
                       is_weekday d = ((r + i) mod 7 <? 5)).
  { intros d i Hd. unfold is_weekday, weekday.
    replace (toordinal d + 6) with ((r + i) + q * 7) by lia.
    by rewrite Z.mod_add by lia. }
  clearbody d1 d2 d3 d4 d5 d6 q r.
  assert (Hcases : r = 0 ∨ r = 1 ∨ r = 2 ∨ r = 3 ∨ r = 4 ∨ r = 5 ∨ r = 6) by lia.
  repeat (destruct Hcases as [Hcases | Hcases]); subst r;
    repeat first
      [ rewrite filter_cons_True by (erewrite Hwd by eassumption; reflexivity)
      | rewrite filter_cons_False by (erewrite Hwd by eassumption; discriminate) ];
    reflexivity.
Qed.

End DatesMore.

(** ** Requests made by a per-date run *)

Section Requests.
Context {C : Codecs}.

Lemma no_request_ret {A} (a : A) : no_request (ret a).
Proof. by intros w. Qed.

Lemma no_request_raise {A} (e : exn) : no_request (@raise A e).
Proof. by intros w. Qed.

Lemma no_request_print (l : line) : no_request (print l).
Proof. by intros w. Qed.

Lemma no_request_bind {A B} (m : M A) (k : A → M B) :
  no_request m → (∀ a, no_request (k a)) → no_request (bind m k).
Proof.
  intros Hm Hk w. unfold bind. specialize (Hm w).
  destruct (m w) as [[a | e |] w1]; cbn [snd] in *; [| done | done].
  by rewrite Hk.
Qed.

Lemma no_request_try {A} (m : M A) (h : exn → M A) :
  no_request m → (∀ e, no_request (h e)) → no_request (try_except m h).
Proof.
  intros Hm Hh w. unfold try_except. specialize (Hm w).
  destruct (m w) as [[a | e |] w1]; cbn [snd] in *; [done | | done].
  by rewrite Hh.
Qed.

Ltac prim_no_request :=
  intros w;
  cbv beta delta [path_exists open_rb read_all open_wb write store unlink rename
                  mkdir_p or_raise ret raise];
  repeat case_match; reflexivity.

Lemma no_request_open_rb (p : Path) : no_request (open_rb p).
Proof. prim_no_request. Qed.
Lemma no_request_read_all (p : Path) : no_request (read_all p).
Proof. prim_no_request. Qed.
Lemma no_request_open_wb (p : Path) : no_request (open_wb p).
Proof. prim_no_request. Qed.
Lemma no_request_write (p : Path) (b : bytes) : no_request (write p b).
Proof. prim_no_request. Qed.
Lemma no_request_store (p : Path) (b : bytes) : no_request (store p b).
Proof. prim_no_request. Qed.
Lemma no_request_unlink (p : Path) : no_request (unlink p).
Proof. prim_no_request. Qed.
Lemma no_request_rename (p q : Path) : no_request (rename p q).
Proof. prim_no_request. Qed.
Lemma no_request_mkdir_p (d : string) : no_request (mkdir_p d).
Proof. prim_no_request. Qed.
Lemma no_request_or_raise {A} (o : option A) (e : exn) : no_request (or_raise o e).
Proof. prim_no_request. Qed.

Ltac no_request_step :=
  first
    [ apply no_request_ret | apply no_request_raise | apply no_request_print
    | apply no_request_open_rb | apply no_request_read_all
    | apply no_request_open_wb | apply no_request_write | apply no_request_store
    | apply no_request_unlink | apply no_request_rename | apply no_request_mkdir_p
    | apply no_request_or_raise
    | apply no_request_bind; [| intros ?]
    | apply no_request_try; [| intros ?]
    | match goal with
      | |- no_request (if ?b then _ else _) => destruct b
      | |- no_request (match ?x with _ => _ end) => destruct x
      end ].

Lemma no_request_compress_file (a : pathlike) : no_request (compress_file a).
Proof.
  unfold compress_file, copyfileobj_gzip, unlink_arg. cbv zeta.
  repeat no_request_step.
Qed.

Lemma no_request_extract_file (file : Path) (extract_to : string) :
  no_request (Nse.extract_file file extract_to).
Proof. unfold Nse.extract_file. cbv zeta. repeat no_request_step. Qed.

(** X14. A per-date run of exchange A with a parseable date and a usable
    directory makes exactly one request, to the URL of that date,
    whatever becomes of it (runner_bse.py 84-96). *)
Theorem bse_per_date_one_request (date_str outdir : string) (d : datetime) (w : World) :
  strptime (Str.upper date_str) = Some d →
  dir_usable outdir w →
  requests (snd (Bse.download_bse_equity_bhavcopy date_str outdir w))
  = requests w ++ [Bse.bhavcopy_url d].
Proof.
  intros Hd Hu. rewrite (bse_per_date_cases date_str outdir d w Hd Hu).
  cbv zeta. cbn [snd requests add_line].
  rewrite no_request_compress_file.
  rewrite bse_download_file_cases. cbv zeta.
  destruct (net w ∅ (Bse.bhavcopy_url d)) as [r |]; [| reflexivity].
  destruct (status_code r =? 200); [| reflexivity].
  case_decide; reflexivity.
Qed.

Lemma nse_download_then_quiet {B} (session : Session) (url : string) (dest : Path)
    (k : unit → M B) (w : World) :
  (∀ a, no_request (k a)) →
  requests (snd (bind (Nse.download_file session url dest) k w)) = requests w ++ [url].
Proof.
  intros Hk. unfold bind. rewrite nse_download_file_cases. cbv zeta.
  destruct (net w (cookies session) url) as [r |]; [| reflexivity].
  destruct (Str.contains _ _); [reflexivity |].
  case_decide; [reflexivity |]. by rewrite Hk.
Qed.

(** X15. A per-date run of exchange B contacts at most two URLs, the
    homepage and the archive of the date, in that order and each at most
    once; with the cookie file present the homepage is not contacted
    (runner_nse.py 120-144). *)
Theorem nse_per_date_requests (date_str outdir : string) (w : World) :
  ∃ l, requests (snd (Nse.download_nse_equity_bhavcopy date_str outdir w))
       = requests w ++ l ∧
    (l = [] ∨ l = [Nse.HOMEPAGE] ∨
     ∃ d, strptime (Str.upper date_str) = Some d ∧
          (l = [nse_zip_url d] ∨ l = [Nse.HOMEPAGE; nse_zip_url d])) ∧
    (is_Some (files w !! path_str nse_cookie_path) →
     l = [] ∨ ∃ d, strptime (Str.upper date_str) = Some d ∧ l = [nse_zip_url d]).
Proof.
  unfold Nse.download_nse_equity_bhavcopy.
  destruct (strptime (Str.upper date_str)) as [d |] eqn:Hd; cycle 1.
  { exists []. rewrite app_nil_r. split_and!; auto. }
  unfold or_raise at 1, bind at 1, ret at 1.
  unfold bind at 1, mkdir_p.
  case_decide. { exists []. rewrite app_nil_r. split_and!; auto. }
  case_decide. { exists []. rewrite app_nil_r. split_and!; auto. }
  unfold bind at 1. rewrite get_or_set_cookies_cases.
  fold nse_cookie_path. fold (nse_zip_url d). fold (nse_zip_path outdir d).
  destruct (files w !! path_str nse_cookie_path) as [data |] eqn:Hck.
  - destruct (pickle_loads data) as [c |].
    + rewrite nse_download_then_quiet.
      * exists [nse_zip_url d]. split_and!; eauto 10.
      * intros a. repeat first [apply no_request_extract_file
                               | apply no_request_compress_file | no_request_step].
    + exists []. rewrite app_nil_r. split_and!; auto.
  - cbv zeta.
    assert (Hno : is_Some (@None bytes) → False) by (by intros [? ?]).
    destruct (net w _ Nse.HOMEPAGE) as [r0 |].
    + case_decide.
      * exists [Nse.HOMEPAGE]. split_and!; [reflexivity | auto | by intros ?%Hno].
      * rewrite nse_download_then_quiet.
        -- exists [Nse.HOMEPAGE; nse_zip_url d]. cbn [requests add_request set_files].
           rewrite <- app_assoc. split_and!; [reflexivity | eauto 10 | by intros ?%Hno].
        -- intros a. repeat first [apply no_request_extract_file
                                  | apply no_request_compress_file | no_request_step].
    + exists [Nse.HOMEPAGE]. split_and!; [reflexivity | auto | by intros ?%Hno].
Qed.

End Requests.

(** ** The pipeline of exchange B, end to end *)

Section NseMore.
Context {C : Codecs}.

Lemma nse_per_date_bad_cookies (date_str outdir : string) (d : datetime)
    (w : World) (data : bytes) :
  strptime (Str.upper date_str) = Some d →
  dir_usable outdir w →
  files w !! path_str nse_cookie_path = Some data →
  pickle_loads data = None →
  Nse.download_nse_equity_bhavcopy date_str outdir w = (Raise UnpicklingError, w).
Proof.
  intros Hd [Hf Hden] Hck Hload. unfold Nse.download_nse_equity_bhavcopy.
  rewrite Hd. unfold or_raise at 1, bind at 1, ret at 1.
  unfold bind at 1, mkdir_p.
  rewrite decide_False by (rewrite Hf; by intros [? ?]).
  rewrite decide_False by done.
  unfold bind at 1. rewrite get_or_set_cookies_cases.
  fold nse_cookie_path. by rewrite Hck, Hload.
Qed.

Lemma run_dates_all_fail (per_date : string → string → M Path) (outdir : string)
    (Inv : World → Prop) (ds : list datetime) :
  (∀ l w, Inv w → Inv (add_line l w)) →
  (∀ d w0, d ∈ ds → Inv w0 →
     ∃ e, per_date (Str.upper (strftime_dbY d)) outdir w0 = (Raise e, w0)) →
  ∀ (acc : list Path) (w : World),
    Inv w →
    ∃ w', run_dates per_date outdir ds acc w = (Ret acc, w') ∧ Inv w'.
Proof.
  intros Hline. induction ds as [| d ds IH]; intros Hfail acc w HI.
  - by exists w.
  - cbn [run_dates]. unfold bind at 1, range_body.
    destruct (weekday d <? 5).
    + destruct (Hfail d w ltac:(left) HI) as (e & He).
      unfold try_except, bind at 1. rewrite He. unfold bind at 1, print, ret at 1.
      apply IH; [intros ????; apply Hfail; [by right | done] | by apply Hline].
    + unfold bind at 1, print, ret at 1.
      apply IH; [intros ????; apply Hfail; [by right | done] | by apply Hline].
Qed.

(** X16. A cookie file that cannot be unpickled is never replaced
    (runner_nse.py 33-35): every per-date run of exchange B raises before
    any request, so the driver returns the empty list for the whole
    range, having made no request and changed no file. *)
Theorem nse_corrupt_cookie_file (start_date end_date outdir : string)
    (s e : datetime) (w : World) (data : bytes) :
  strptime (Str.upper start_date) = Some s →
  strptime (Str.upper end_date) = Some e →
  toordinal e < MAXORDINAL →
  dir_usable outdir w →
  files w !! path_str nse_cookie_path = Some data →
  pickle_loads data = None →
  ∃ w', Nse.download_bhavcopy_range start_date end_date outdir w = (Ret [], w') ∧
        files w' = files w ∧ requests w' = requests w.
Proof.
  intros Hs He Hlt Hu Hck Hload.
  pose proof (strptime_valid _ _ Hs) as Vs. pose proof (strptime_valid _ _ He) as Ve.
  set (Inv := λ w0 : World,
         files w0 = files w ∧ denied w0 = denied w ∧ requests w0 = requests w).
  destruct (run_dates_all_fail Nse.download_nse_equity_bhavcopy outdir Inv
              (dates_in_range s e)) with (acc := @nil Path) (w := w)
    as (w1 & Hrun & HI1 & _ & HI3).
  - intros l w0 Hw0. exact Hw0.
  - intros d w0 Hd (Hf0 & Hd0 & _). exists UnpicklingError.
    apply (nse_per_date_bad_cookies _ outdir d w0 data).
    + apply strptime_strftime. by apply (dates_in_range_valid s e).
    + destruct Hu as [Hu1 Hu2]. split; [by rewrite Hf0 | by rewrite Hd0].
    + by rewrite Hf0.
    + done.
  - done.
  - exists (add_line (Completed 0) w1). split; [| done].
    unfold Nse.download_bhavcopy_range, range_driver. rewrite Hs, He.
    unfold or_raise, bind at 1, ret at 1, bind at 1, ret at 1, bind at 1.
    rewrite range_loop_dates by done. unfold bind at 1. rewrite Hrun.
    unfold loop_exit. rewrite decide_True by auto. reflexivity.
Qed.

(** X17. When a per-date run of exchange B goes through (runner_nse.py
    107-147): with the cookie file readable, the origin answering the
    archive URL with a non-HTML body that is an archive with a first
    member, and the four paths of the run writable, the run returns
    [<outdir>/<YYYYMMDD>.csv], makes the one download request,
    [<outdir>/<YYYYMMDD>.csv.gz] holds the compressed first member, and
    neither the archive nor the CSV is left. *)
Theorem nse_run_succeeds (date_str outdir : string) (d : datetime) (w : World)
    (data : bytes) (c : Cookies) (r : Response) (n : string) (b0 : bytes)
    (rest : list (string * bytes)) :
  strptime (Str.upper date_str) = Some d →
  dir_usable outdir w →
  files w !! path_str nse_cookie_path = Some data →
  pickle_loads data = Some c →
  net w (cookies (cookies_update (mksession ∅ HEADERS) c)) (nse_zip_url d) = Some r →
  ¬ is_html r →
  zip_members (content r) = Some ((n, b0) :: rest) →
  path_str (joinpath outdir n) ≠ path_str (nse_zip_path outdir d) →
  path_str (nse_zip_path outdir d) ∉ denied w →
  path_str (joinpath outdir n) ∉ denied w →
  path_str (nse_csv_path outdir d) ∉ denied w →
  path_str (nse_gz_path outdir d) ∉ denied w →
  ∃ body w',
    Nse.getinfo n ((n, b0) :: rest) = Some body ∧
    Nse.download_nse_equity_bhavcopy date_str outdir w
    = (Ret (nse_csv_path outdir d), w') ∧
    files w' !! path_str (nse_gz_path outdir d) = Some (gzip_compress body) ∧
    nse_intermediates_gone outdir d w' ∧
    requests w' = requests w ++ [nse_zip_url d] ∧
    console w' = console w ++
      [Compressed (name (nse_csv_path outdir d)) (name (nse_gz_path outdir d));
       ExtractedSaved (path_str (nse_csv_path outdir d))].
Proof.
  intros Hd [Hf Hden] Hck Hload Hnet Hhtml Hzip Hez Dz De Dc Dg.
  destruct (getinfo_head n b0 rest) as [body Hbody]. exists body.
  set (zip := nse_zip_path outdir d) in *.
  set (csv := nse_csv_path outdir d) in *.
  set (gz := nse_gz_path outdir d) in *.
  set (ex := joinpath outdir n) in *.
  assert (Hzc : path_str zip ≠ path_str csv) by (apply joinpath_ne; discriminate).
  assert (Hzg : path_str zip ≠ path_str gz) by (apply joinpath_ne; discriminate).
  assert (Hcg : path_str gz ≠ path_str csv).
  { apply joinpath_ne. intros E. apply (inj (String.app _)) in E. discriminate. }
  unfold Nse.download_nse_equity_bhavcopy.
  rewrite Hd. unfold or_raise at 1, bind at 1, ret at 1.
  unfold bind at 1, mkdir_p.
  rewrite decide_False by (rewrite Hf; by intros [? ?]).
  rewrite decide_False by done.
  unfold bind at 1. rewrite get_or_set_cookies_cases.
  fold nse_cookie_path. rewrite Hck, Hload.
  fold (nse_zip_url d). fold zip. fold csv.
  unfold bind at 1. rewrite nse_download_file_cases, Hnet. cbv zeta.
  unfold is_html in Hhtml. destruct (Str.contains _ _); [done |].
  rewrite decide_False by done.
  unfold bind at 1. rewrite extract_file_cases.
  cbn [files set_files add_request denied].
  rewrite lookup_insert_eq, Hzip. cbn [fmap list_fmap head fst].
  rewrite Hbody. cbv zeta. fold ex.
  rewrite decide_False by done. rewrite (decide_False (P := path_str ex = path_str zip)) by done.
  rewrite decide_False by done.
  unfold bind at 1. rewrite rename_cases.
  cbn [files set_files add_request denied].
  rewrite lookup_delete_ne, lookup_insert_eq by done.
  rewrite decide_False by done. rewrite decide_False by done.
  unfold bind at 1.
  erewrite (compress_file_succeeds csv gz body); cycle 1.
  { apply nse_with_suffix. }
  { cbn [files set_files]. apply lookup_insert_eq. }
  { done. }
  { done. }
  unfold bind, print, ret. eexists. split_and!; [reflexivity | reflexivity | | | |].
  - cbn [files set_files add_line]. rewrite lookup_delete_ne by done. apply lookup_insert_eq.
  - split; cbn [files set_files add_line]; [| apply lookup_delete_eq].
    rewrite lookup_delete_ne, lookup_insert_ne, lookup_insert_ne by done.
    destruct (decide (path_str ex = path_str zip)); [done |].
    rewrite lookup_delete_ne by done. apply lookup_delete_eq.
  - reflexivity.
  - cbn [console set_files add_line add_request]. by rewrite <- app_assoc.
Qed.

(** X18. Two calls of [get_or_set_cookies] in a row (runner_nse.py 33-40, as
    on two dates of one batch): when the first finds no file and returns,
    it has written one; the second, for any session, makes no request,
    leaves the world as it is, and loads the very cookies the origin set
    on the first call. *)
Theorem cookie_file_reused `{!CodecLaws C} (s1 s2 s1' : Session) (cookie_path : Path)
    (w w1 : World) :
  files w !! path_str cookie_path = None →
  Nse.get_or_set_cookies s1 cookie_path w = (Ret s1', w1) →
  ∃ r, net w (cookies s1) Nse.HOMEPAGE = Some r ∧
       requests w1 = requests w ++ [Nse.HOMEPAGE] ∧
       files w1 !! path_str cookie_path = Some (pickle_dumps (resp_cookies r)) ∧
       Nse.get_or_set_cookies s2 cookie_path w1
       = (Ret (cookies_update s2 (resp_cookies r)), w1).
Proof.
  intros Hf Hrun.
  destruct (get_or_set_cookies_reuse s1 s2 cookie_path w w1 s1' Hf Hrun) as (r & Hr & H2).
  exists r. split_and!; [exact Hr | | | exact H2].
  - rewrite get_or_set_cookies_cases, Hf, Hr in Hrun. cbv zeta in Hrun.
    case_decide; [discriminate |]. by injection Hrun as _ <-.
  - rewrite get_or_set_cookies_cases, Hf, Hr in Hrun. cbv zeta in Hrun.
    case_decide; [discriminate |]. injection Hrun as _ <-. cbn. apply lookup_insert_eq.
Qed.

End NseMore.

(** ** The further properties at concrete inputs *)

Section MoreRuns.
#[local] Existing Instance Toy.codecs.
Import Sample.

Lemma nse_download_ignores_status_witness :
  ∃ w', Nse.download_file (mksession ∅ HEADERS) (nse_zip_url jan1)
          (nse_zip_path "out" jan1) (world origin_json_404) = (Ret tt, w') ∧
        files w' = <[path_str (nse_zip_path "out" jan1) := content json_404]>
                     (files (world origin_json_404)) ∧
        requests w' = requests (world origin_json_404) ++ [nse_zip_url jan1] ∧
        console w' = console (world origin_json_404).
Proof.
  apply (nse_download_ignores_status (mksession ∅ HEADERS) (nse_zip_url jan1)
           (nse_zip_path "out" jan1) (world origin_json_404) json_404).
  - reflexivity.
  - unfold is_html. vm_compute. discriminate.
  - cbn. apply not_elem_of_empty.
Defined.

Lemma extract_file_first_member_only_witness :
  files (snd (Nse.extract_file (mkpath "out/" "x.zip") "out" (world_with_zip two_members)))
    !! "out/b.csv" = None.
Proof.
  destruct (extract_file_first_member_only (mkpath "out/" "x.zip") "out"
              (world_with_zip two_members)
              (snd (Nse.extract_file (mkpath "out/" "x.zip") "out"
                      (world_with_zip two_members)))
              (joinpath "out" "a.csv"))
    as (archive & n & b0 & rest & body & _ & _ & _ & _ & _ & _ & Hframe & _).
  - vm_compute. reflexivity.
  - rewrite Hframe.
    + vm_compute. reflexivity.
    + vm_compute. discriminate.
    + vm_compute. discriminate.
Defined.

Lemma extract_file_bad_archive_witness :
  Nse.extract_file (mkpath "out/" "x.zip") "out" (world_with_zip [])
  = (Raise IndexError, world_with_zip [])
  ∧ Nse.extract_file (mkpath "out/" "20240101.csv") "out" world_with_csv
    = (Raise BadZipFile, world_with_csv).
Proof.
  split.
  - apply (extract_file_bad_archive (mkpath "out/" "x.zip") "out" (world_with_zip [])
             (Toy.pack [])); vm_compute; reflexivity.
  - apply (extract_file_bad_archive (mkpath "out/" "20240101.csv") "out" world_with_csv
             csv_bytes); vm_compute; reflexivity.
Defined.

Lemma compress_file_touches_two_paths_witness :
  requests (snd (compress_file (PPath (mkpath "out/" "20240101.csv")) world_with_csv))
  = requests world_with_csv.
Proof.
  destruct (compress_file_touches_two_paths (PPath (mkpath "out/" "20240101.csv"))
              (mkpath "out/" "20240101.csv.gz") world_with_csv
              (snd (compress_file (PPath (mkpath "out/" "20240101.csv")) world_with_csv))
              (fst (compress_file (PPath (mkpath "out/" "20240101.csv")) world_with_csv)))
    as (_ & Hreq & _).
  - vm_compute. reflexivity.
  - apply surjective_pairing.
  - exact Hreq.
Defined.

Lemma compress_file_str_keeps_input_witness :
  ∃ w', compress_file (PStr "out/20240101.csv") world_with_csv = (Ret PyNone, w') ∧
        files w' !! "out/20240101.csv" = Some csv_bytes ∧
        files w' !! path_str (mkpath "out/" "20240101.csv.gz")
          = Some (gzip_compress csv_bytes) ∧
        console w' = console world_with_csv ++ [CompressionError AttributeError].
Proof.
  apply (compress_file_str_keeps_input "out/20240101.csv"
           (mkpath "out/" "20240101.csv.gz") csv_bytes world_with_csv).
  - discriminate.
  - vm_compute. reflexivity.
  - vm_compute. reflexivity.
  - cbn. apply not_elem_of_empty.
Defined.


Lemma range_driver_never_aborts_witness :
  ∃ l w', range_driver Nse.download_nse_equity_bhavcopy "01JAN2024" "07JAN2024" "out"
            (world origin_html) = (Ret l, w') ∧
          (length l <= weekdays_in_range (mkdate 2024 1 1) (mkdate 2024 1 7))%nat.
Proof.
  apply (range_driver_never_aborts Nse.download_nse_equity_bhavcopy "out"
           "01JAN2024" "07JAN2024" (mkdate 2024 1 1) (mkdate 2024 1 7)
           (world origin_html)).
  - vm_compute. reflexivity.
  - vm_compute. reflexivity.
  - vm_compute. reflexivity.
  - intros x y. apply nse_per_date_terminates.
Defined.

Lemma drivers_return_paths_in_date_order_witness :
  ∃ ds, ds `sublist_of` filter (λ d, is_weekday d = true)
                          (dates_in_range (mkdate 2024 1 1) (mkdate 2024 1 3)) ∧
        [nse_csv_path "out" (mkdate 2024 1 1); nse_csv_path "out" (mkdate 2024 1 2);
         nse_csv_path "out" (mkdate 2024 1 3)] = nse_csv_path "out" <$> ds.
Proof.
  apply (proj2 (drivers_return_paths_in_date_order "01JAN2024" "03JAN2024" "out"
                  (mkdate 2024 1 1) (mkdate 2024 1 3) (world origin_zip)
                  (snd (Nse.download_bhavcopy_range "01JAN2024" "03JAN2024" "out"
                          (world origin_zip)))
                  [nse_csv_path "out" (mkdate 2024 1 1);
                   nse_csv_path "out" (mkdate 2024 1 2);
                   nse_csv_path "out" (mkdate 2024 1 3)]
                  ltac:(vm_compute; reflexivity) ltac:(vm_compute; reflexivity))).
  vm_compute. reflexivity.
Defined.



Lemma names_differ_by_date_witness :
  Bse.bhavcopy_url jan1 ≠ Bse.bhavcopy_url (mkdate 2024 1 2) ∧
  nse_zip_url jan1 ≠ nse_zip_url (mkdate 2024 1 2) ∧
  path_str (bse_raw_path "out" jan1) ≠ path_str (bse_raw_path "out" (mkdate 2024 1 2)) ∧
  path_str (bse_gz_path "out" jan1) ≠ path_str (bse_gz_path "out" (mkdate 2024 1 2)) ∧
  path_str (nse_zip_path "out" jan1) ≠ path_str (nse_zip_path "out" (mkdate 2024 1 2)) ∧
  path_str (nse_gz_path "out" jan1) ≠ path_str (nse_gz_path "out" (mkdate 2024 1 2)).
Proof.
  apply (names_differ_by_date "out" jan1 (mkdate 2024 1 2));
    first [reflexivity | discriminate].
Defined.

Lemma seven_days_five_weekdays_witness :
  weekdays_in_range (mkdate 2024 1 3) (mkdate 2024 1 9) = 5%nat.
Proof.
  apply (seven_days_five_weekdays (mkdate 2024 1 3) (mkdate 2024 1 9)); reflexivity.
Defined.

Lemma bse_per_date_one_request_witness :
  requests (snd (Bse.download_bse_equity_bhavcopy "01JAN2024" "out" (world origin_404)))
  = requests (world origin_404) ++ [Bse.bhavcopy_url jan1].
Proof.
  apply (bse_per_date_one_request "01JAN2024" "out" jan1 (world origin_404)).
  - vm_compute. reflexivity.
  - split; [reflexivity | cbn; apply not_elem_of_empty].
Defined.

Lemma nse_corrupt_cookie_file_witness :
  ∃ w', Nse.download_bhavcopy_range "01JAN2024" "07JAN2024" "out" world_bad_cookies
        = (Ret [], w') ∧
        files w' = files world_bad_cookies ∧ requests w' = requests world_bad_cookies.
Proof.
  apply (nse_corrupt_cookie_file "01JAN2024" "07JAN2024" "out"
           (mkdate 2024 1 1) (mkdate 2024 1 7) world_bad_cookies [Byte.xff]).
  - vm_compute. reflexivity.
  - vm_compute. reflexivity.
  - vm_compute. reflexivity.
  - split; [vm_compute; reflexivity | cbn; apply not_elem_of_empty].
  - vm_compute. reflexivity.
  - reflexivity.
Defined.

Lemma nse_run_succeeds_witness :
  ∃ body w',
    Nse.getinfo "BhavCopy_NSE_CM.csv" [("BhavCopy_NSE_CM.csv", csv_bytes)] = Some body ∧
    Nse.download_nse_equity_bhavcopy "01JAN2024" "out" world_with_cookies
    = (Ret (nse_csv_path "out" jan1), w') ∧
    files w' !! path_str (nse_gz_path "out" jan1) = Some (gzip_compress body) ∧
    nse_intermediates_gone "out" jan1 w' ∧
    requests w' = requests world_with_cookies ++ [nse_zip_url jan1] ∧
    console w' = console world_with_cookies ++
      [Compressed (name (nse_csv_path "out" jan1)) (name (nse_gz_path "out" jan1));
       ExtractedSaved (path_str (nse_csv_path "out" jan1))].
Proof.
  apply (nse_run_succeeds "01JAN2024" "out" jan1 world_with_cookies
           (Toy.dumps jar0) jar0
           (mkresp 200 (Some "application/zip")
              (Toy.pack [("BhavCopy_NSE_CM.csv", csv_bytes)]) ∅)
           "BhavCopy_NSE_CM.csv" csv_bytes []).
  - vm_compute. reflexivity.
  - split; [vm_compute; reflexivity | cbn; apply not_elem_of_empty].
  - vm_compute. reflexivity.
  - apply toy_pickle_roundtrip.
  - reflexivity.
  - unfold is_html. vm_compute. discriminate.
  - vm_compute. reflexivity.
  - vm_compute. discriminate.
  - cbn. apply not_elem_of_empty.
  - cbn. apply not_elem_of_empty.
  - cbn. apply not_elem_of_empty.
  - cbn. apply not_elem_of_empty.
Defined.

Lemma cookie_file_reused_witness :
  ∃ r, net (world origin_zip) (cookies (mksession ∅ HEADERS)) Nse.HOMEPAGE = Some r ∧
       requests (snd (Nse.get_or_set_cookies (mksession ∅ HEADERS) nse_cookie_path
                        (world origin_zip)))
       = requests (world origin_zip) ++ [Nse.HOMEPAGE] ∧
       files (snd (Nse.get_or_set_cookies (mksession ∅ HEADERS) nse_cookie_path
                     (world origin_zip)))
         !! path_str nse_cookie_path = Some (pickle_dumps (resp_cookies r)) ∧
       Nse.get_or_set_cookies (mksession ∅ []) nse_cookie_path
         (snd (Nse.get_or_set_cookies (mksession ∅ HEADERS) nse_cookie_path
                 (world origin_zip)))
       = (Ret (cookies_update (mksession ∅ []) (resp_cookies r)),
          snd (Nse.get_or_set_cookies (mksession ∅ HEADERS) nse_cookie_path
                 (world origin_zip))).
Proof.
  apply (cookie_file_reused (mksession ∅ HEADERS) (mksession ∅ [])
           (cookies_update (mksession ∅ HEADERS) jar0) nse_cookie_path
           (world origin_zip)).
  - vm_compute. reflexivity.
  - vm_compute. reflexivity.
Defined.

End MoreRuns.
